(** * Terraform module generator: schema extraction, prompt assembly,
      output sanitising and module writing.

    Shallow embedding of [2_extract_schema_and_wiki.py] and
    [3_crew_terraform.py], with the properties the design document states
    about them. *)

From Stdlib Require Import NArith ZArith String Ascii List Lia Bool DecimalString.
From stdpp Require Import base option list gmap.

Set Warnings "-register-all".
Local Open Scope N_scope.

(** ** Text

    A Python [str] is a sequence of Unicode code points (lone surrogates
    included); it is modelled as a list of code points. *)

Abbreviation text := (list N).

Fixpoint text_of_string (s : string) : text :=
  match s with
  | EmptyString => []
  | String a s' => N_of_ascii a :: text_of_string s'
  end.

Arguments text_of_string s%_string.

(** Literals are written as ASCII strings; [T "abc"] is the text [abc]. *)
Abbreviation T := text_of_string.

(** The double quote, written by its code so that literals stay plain. *)
Definition dq : text := [34].
Definition nl : text := [10].

Definition text_eqb (a b : text) : bool := bool_decide (a = b).

(** [s.startswith(p)] *)
Fixpoint starts_with (p s : text) : bool :=
  match p, s with
  | [], _ => true
  | _ :: _, [] => false
  | a :: p', b :: s' => (a =? b) && starts_with p' s'
  end.

(** [s.find(p)]: index of the first occurrence of [p] in [s]. *)
Fixpoint find (p s : text) : option nat :=
  if starts_with p s then Some O
  else match s with
       | [] => None
       | _ :: s' => S <$> find p s'
       end.

(** [p in s] *)
Definition contains (p s : text) : bool :=
  match find p s with Some _ => true | None => false end.

(** ** Regular-expression substitution

    [re.sub] scans the subject from left to right.  At each position it
    tries the pattern; on a match it emits the replacement and resumes
    after the match, otherwise it copies one character.  A pattern is
    given by its matcher at one position: the replacement text and the
    number of characters consumed (never zero for the patterns used
    here).  [skip] counts the characters of the current match still to be
    passed over. *)

Definition matcher := text -> option (text * nat).

Fixpoint re_sub_from (m : matcher) (skip : nat) (s : text) : text :=
  match skip with
  | S k => match s with
           | [] => []
           | _ :: s' => re_sub_from m k s'
           end
  | O => match s with
         | [] => []
         | c :: s' =>
             match m s with
             | Some (repl, len) => repl ++ re_sub_from m (Nat.pred len) s'
             | None => c :: re_sub_from m O s'
             end
         end
  end.

Definition re_sub (m : matcher) (s : text) : text := re_sub_from m O s.

(** Does the pattern match at some position of [s]? *)
Fixpoint matches_somewhere (m : matcher) (s : text) : bool :=
  match s with
  | [] => false
  | _ :: s' =>
      match m s with
      | Some _ => true
      | None => matches_somewhere m s'
      end
  end.

(** ** The sanitiser, [clean_content] *)

Module Sanitizer.

Definition backtick : N := 96.
Definition fence : text := [backtick; backtick; backtick].

(** The pattern [```(?:.*?\n)?(.*?)```] with [re.DOTALL], replaced by its
    group 1.  After the opening fence the optional group is tried first:
    its lazy [.*?] stops at the first line feed, and group 1 then runs
    lazily to the first closing fence after that line feed.  When no
    closing fence follows the first line feed, none follows a later one
    either, so the engine falls back to the empty optional group and
    group 1 starts right after the opening fence. *)
Definition fence_match : matcher := fun s =>
  if starts_with fence s then
    let r := drop 3 s in
    let with_tag :=
      match find nl r with
      | Some j =>
          let body := drop (S j) r in
          match find fence body with
          | Some k => Some (take k body, (3 + S j + k + 3)%nat)
          | None => None
          end
      | None => None
      end in
    match with_tag with
    | Some res => Some res
    | None =>
        match find fence r with
        | Some k => Some (take k r, (3 + k + 3)%nat)
        | None => None
        end
    end
  else None.

(** The pattern [/\*\*.*?\*/] with [re.DOTALL], replaced by the empty
    text: an opener [/**] and everything up to the first [*/] after it. *)
Definition comment_open : text := [47; 42; 42].
Definition comment_close : text := [42; 47].

Definition comment_match : matcher := fun s =>
  if starts_with comment_open s then
    match find comment_close (drop 3 s) with
    | Some k => Some ([], (3 + k + 2)%nat)
    | None => None
    end
  else None.

(** The character class [\u200b\u200c\u200d\uFEFF\u00A0]. *)
Definition is_invisible (c : N) : bool :=
  (c =? 0x200b) || (c =? 0x200c) || (c =? 0x200d) || (c =? 0xFEFF) || (c =? 0xA0).

(** [str.isspace] on one code point: the characters [str.strip()]
    removes. *)
Definition is_space (c : N) : bool :=
  ((0x09 <=? c) && (c <=? 0x0D)) || ((0x1C <=? c) && (c <=? 0x20))
  || (c =? 0x85) || (c =? 0xA0) || (c =? 0x1680)
  || ((0x2000 <=? c) && (c <=? 0x200A))
  || (c =? 0x2028) || (c =? 0x2029) || (c =? 0x202F) || (c =? 0x205F)
  || (c =? 0x3000).

Fixpoint lstrip (s : text) : text :=
  match s with
  | [] => []
  | c :: s' => if is_space c then lstrip s' else s
  end.

Definition rstrip (s : text) : text := rev (lstrip (rev s)).

Definition strip (s : text) : text := rstrip (lstrip s).

(** Surrogate code points cannot be encoded in UTF-8. *)
Definition is_surrogate (c : N) : bool := (0xD800 <=? c) && (c <=? 0xDFFF).

(** Encoded byte strings are represented by the code points they encode:
    the encoder with [errors='ignore'] drops what it cannot encode, and
    the decoder reads back what was encoded. *)
Definition encode_utf8_ignore (s : text) : text :=
  List.filter (fun c => negb (is_surrogate c)) s.

Definition decode_utf8_ignore (b : text) : text := b.

Definition BOM : N := 0xFEFF.

(** The [utf-8-sig] codec writes a byte-order mark first, and skips one
    when reading. *)
Definition encode_utf8_sig_ignore (s : text) : text := BOM :: encode_utf8_ignore s.

Definition decode_utf8_sig (b : text) : text :=
  match b with
  | c :: b' => if c =? BOM then b' else b
  | [] => []
  end.

Definition clean_content (content : text) : text :=
  let content := re_sub fence_match content in
  let content := List.filter (fun c => negb (c =? backtick)) content in
  let content := strip (re_sub comment_match content) in
  let content := strip (List.filter (fun c => negb (is_invisible c)) content) in
  let content := decode_utf8_ignore (encode_utf8_ignore content) in
  let content := strip (decode_utf8_sig (encode_utf8_sig_ignore content)) in
  content.

End Sanitizer.

(** ** Files, console and process outcomes

    Both scripts run against a working directory and print to the
    console.  A JSON file is kept as the value [json.load] returns for it:
    reading and printing JSON syntax is not part of the model.  The inputs
    a script loads (the provider schema, the schema summary, the
    documentation text) are arguments of its model; operating-system
    failures while writing are outside it.  Paths follow POSIX.

    Directories and files are kept under their paths as written, and a
    file is taken to open for writing wherever its path points.  That is
    the file system's behaviour for normal relative paths (no empty, [.]
    or [..] component) whose directory exists; the properties that name
    directories or speak of other files assume a resource type for which
    the scripts build such paths. *)

Module Schema.

(** A [dict] as [json.load] builds it: distinct keys, in document order. *)
Definition dict (V : Type) : Type := list (text * V).

(** [d.get(k)] *)
Fixpoint dict_get {V : Type} (k : text) (d : dict V) : option V :=
  match d with
  | [] => None
  | (k', v) :: d' => if text_eqb k k' then Some v else dict_get k d'
  end.

Definition keys {V : Type} (d : dict V) : list text := map fst d.

(** *** The provider schema document (input of the extractor) *)

Record attr_schema : Type := AttrSchema {
  attr_required : option bool;
  attr_computed : option bool
}.

Inductive block_schema : Type :=
| Block (attributes : option (dict attr_schema))
        (block_types : option (list (text * block_type_schema)))
with block_type_schema : Type :=
| BlockType (block : block_schema) (min_items : option Z).

(** One entry of [resource_schemas]: a JSON object with the keys
    [version] and [block], each possibly missing. *)
Record resource_schema : Type := ResourceSchema {
  rs_version : option Z;
  rs_block : option block_schema
}.

Record provider_schema : Type := ProviderSchema {
  resource_schemas : option (dict resource_schema)
}.

Record schema_document : Type := SchemaDocument {
  provider_schemas : option (dict provider_schema)
}.

(** *** The schema summary (output of the extractor) *)

Record attribute : Type := Attribute {
  name : text;
  required : bool
}.

Inductive block_node : Type :=
| BlockNode (block_name : text) (block_min_items : Z)
            (block_attributes : list attribute) (block_blocks : list block_node).

Definition block_name (b : block_node) : text :=
  match b with BlockNode n _ _ _ => n end.
Definition block_min_items (b : block_node) : Z :=
  match b with BlockNode _ m _ _ => m end.
Definition block_attributes (b : block_node) : list attribute :=
  match b with BlockNode _ _ a _ => a end.
Definition block_blocks (b : block_node) : list block_node :=
  match b with BlockNode _ _ _ bs => bs end.

End Schema.

Import Schema.

Inductive file : Type :=
| TextFile (content : text)
| SummaryFile (arguments : option (list attribute))
              (block_tree : option (list block_node)).

Record world : Type := World {
  dirs : gset text;
  files : gmap text file;
  stdout : list text
}.

Inductive exn : Type :=
| ValueError (msg : text)
| KeyError (key : text)
| BackendError (msg : text).

Inductive outcome (A : Type) : Type :=
| Returned (a : A) (w : world)
| Raised (e : exn) (w : world)
| Exited (code : Z) (w : world).

Arguments Returned {A} a w.
Arguments Raised {A} e w.
Arguments Exited {A} code w.

Definition final_world {A : Type} (o : outcome A) : world :=
  match o with
  | Returned _ w => w
  | Raised _ w => w
  | Exited _ w => w
  end.

Definition M (A : Type) : Type := world -> outcome A.

#[global] Instance M_ret : MRet M := fun A a w => Returned a w.

#[global] Instance M_bind : MBind M := fun A B k m w =>
  match m w with
  | Returned a w' => k a w'
  | Raised e w' => Raised e w'
  | Exited c w' => Exited c w'
  end.

Definition raise {A : Type} (e : exn) : M A := fun w => Raised e w.

(** [sys.exit(code)] *)
Definition sys_exit {A : Type} (code : Z) : M A := fun w => Exited code w.

(** [try: m except ValueError as e: h(e)] *)
Definition try_ValueError {A : Type} (m : M A) (h : text -> M A) : M A := fun w =>
  match m w with
  | Raised (ValueError msg) w' => h msg w'
  | o => o
  end.

Definition modify (f : world -> world) : M unit := fun w => Returned tt (f w).

Definition print (line : text) : M unit :=
  modify (fun w => World (dirs w) (files w) (stdout w ++ [line])).

(** [os.path.join(a, b)] on POSIX: an absolute [b] discards [a]. *)
Definition path_join (a b : text) : text :=
  if starts_with (T "/") b then b
  else if bool_decide (a = []) then b
  else if bool_decide (last a = Some 47) then a ++ b
  else a ++ T "/" ++ b.

(** The directories a path lies under: every prefix that ends before a
    separator. *)
Fixpoint ancestors_from (done rest : text) : list text :=
  match rest with
  | [] => []
  | c :: rest' =>
      (if (c =? 47) && negb (bool_decide (done = [])) then [done] else [])
      ++ ancestors_from (done ++ [c]) rest'
  end.

Definition ancestors (p : text) : list text := ancestors_from [] p.

(** [os.makedirs(p, exist_ok=True)] *)
Definition makedirs_world (p : text) (w : world) : world :=
  World (dirs w ∪ list_to_set (ancestors p) ∪ {[p]}) (files w) (stdout w).

(** [open(p, 'w')]: the file exists from now on, and is empty. *)
Definition open_w_world (p : text) (w : world) : world :=
  World (dirs w) (<[p := TextFile []]> (files w)) (stdout w).

(** [f.write(content)] on a file opened at [p]. *)
Definition write_world (p content : text) (w : world) : world :=
  let old := match files w !! p with
             | Some (TextFile t) => t
             | _ => []
             end in
  World (dirs w) (<[p := TextFile (old ++ content)]> (files w)) (stdout w).

(** [json.dump(summary, f)] on a file opened at [p]. *)
Definition dump_summary_world (p : text) (args : list attribute)
    (blocks : list block_node) (w : world) : world :=
  World (dirs w) (<[p := SummaryFile (Some args) (Some blocks)]> (files w)) (stdout w).

(** [a.replace(old, new)] for a non-empty [old]. *)
Definition str_replace (old new s : text) : text :=
  re_sub (fun r => if starts_with old r then Some (new, length old) else None) s.

(** ** The extractor, [2_extract_schema_and_wiki.py] *)

Module Extractor.

(** The loop over [block.get("attributes", {}).items()]. *)
Fixpoint parse_attributes (items : dict attr_schema) : list attribute :=
  match items with
  | [] => []
  | (name, attr) :: rest =>
      let is_required := default false (attr_required attr) in
      let is_computed := default false (attr_computed attr) in
      if negb is_required && is_computed
      then parse_attributes rest
      else Attribute name is_required :: parse_attributes rest
  end.

(** [parse_block]: the pair stands for the dict with the keys
    [attributes] and [blocks]. *)
Fixpoint parse_block (block : block_schema) : list attribute * list block_node :=
  match block with
  | Block attributes block_types =>
      let attributes :=
        match attributes with
        | Some items => parse_attributes items
        | None => []
        end in
      let blocks :=
        match block_types with
        | Some items =>
            (fix loop (items : list (text * block_type_schema)) : list block_node :=
               match items with
               | [] => []
               | (block_name, BlockType block min_items) :: rest =>
                   let sub_block := parse_block block in
                   BlockNode block_name (default 0%Z min_items)
                             (fst sub_block) (snd sub_block)
                   :: loop rest
               end) items
        | None => []
        end in
      (attributes, blocks)
  end.

Definition not_found_message (resource_type : text) : text :=
  [0x274C] ++ T " Resource type '" ++ resource_type ++ T "' not found in schema.".

(** The chain of [get]s that yields [resources];
    [provider_supplier] is the module-level variable the function reads. *)
Definition resource_catalog (schema : schema_document)
    (provider_supplier provider_name : text) : dict resource_schema :=
  default []
    (resource_schemas
       (default (ProviderSchema None)
          (dict_get (T "registry.terraform.io/" ++ provider_supplier ++ T "/" ++ provider_name)
             (default [] (provider_schemas schema))))).

(** [extract_full_block_tree], on the document [json.load] returned for
    the schema file.  An empty object is the one falsy value an entry of
    the catalog can be. *)
Definition extract_full_block_tree (schema : schema_document)
    (provider_supplier resource_type provider_name provider_version : text)
    : M (list attribute * list block_node) :=
  let resources := resource_catalog schema provider_supplier provider_name in
  let resource := default (ResourceSchema None None) (dict_get resource_type resources) in
  match resource with
  | ResourceSchema None None => raise (ValueError (not_found_message resource_type))
  | ResourceSchema _ None => raise (KeyError (T "block"))
  | ResourceSchema _ (Some root_block) => mret (parse_block root_block)
  end.

(** [download_markdown]; [urlretrieve url] is what the call does with the
    destination: it saves the page there ([inr page]), or it raises an
    exception with the text [e], having left the destination alone or
    holding a part of the page ([inl (e, leftover)]). *)
Definition download_markdown (urlretrieve : text -> (text * option text) + text)
    (provider_supplier resource_type provider_name provider_version : text) : M unit :=
  let base_url :=
    T "https://raw.githubusercontent.com/" ++ provider_supplier
      ++ T "/terraform-provider-" ++ provider_name ++ T "/v" ++ provider_version
      ++ T "/website/docs/r/" in
  let short_name := str_replace (provider_name ++ T "_") [] resource_type in
  let filename := short_name ++ T ".html.markdown" in
  let url := base_url ++ filename in
  modify (makedirs_world (T "wiki"));;
  let destination := path_join (T "wiki") filename in
  print ([0x1F517] ++ T " Downloading markdown from: " ++ url);;
  match urlretrieve url with
  | inr page =>
      modify (fun w => write_world destination page (open_w_world destination w));;
      print ([0x1F4C2] ++ T " Saved markdown to: " ++ destination)
  | inl (e, leftover) =>
      match leftover with
      | Some part =>
          modify (fun w => write_world destination part (open_w_world destination w))
      | None => mret tt
      end;;
      print ([0x274C] ++ T " Failed to download markdown: " ++ e)
  end.

Definition usage : text :=
  T "Usage: python 2_extract_schema_and_wiki.py <provider_supplier> <provider_name> <provider_version> <resource_type>".

(** The script body; [argv] is [sys.argv], [schema] the content of the
    provider schema file. *)
Definition main (schema : schema_document) (urlretrieve : text -> (text * option text) + text)
    (argv : list text) : M unit :=
  match argv with
  | [_; provider_supplier; provider_name; provider_version; resource_type] =>
      print (nl ++ [0x1F50D] ++ T " Extracting schema for resource: " ++ resource_type ++ nl);;
      '(args, blocks) ←
        try_ValueError
          (extract_full_block_tree schema provider_supplier resource_type
             provider_name provider_version)
          (fun msg => print msg;; sys_exit 1);
      modify (makedirs_world (T "schemas"));;
      let output_path := path_join (T "schemas") (resource_type ++ T ".json") in
      modify (dump_summary_world output_path args blocks);;
      print (nl ++ [0x1F4C2] ++ T " Schema summary written to: " ++ output_path);;
      download_markdown urlretrieve provider_supplier resource_type
        provider_name provider_version
  | _ => print usage;; sys_exit 1
  end.

End Extractor.

(** ** The generator, [3_crew_terraform.py] *)

Module Crew.

Import Sanitizer.

(** [str(n)] for an [int]. *)
Definition str_of_int (n : Z) : text :=
  text_of_string (NilZero.string_of_int (Z.to_int n)).

(** [sep.join(lines)] *)
Fixpoint join (sep : text) (lines : list text) : text :=
  match lines with
  | [] => []
  | [l] => l
  | l :: rest => l ++ sep ++ join sep rest
  end.

(** ["  " * indent] *)
Fixpoint indentation (indent : nat) : text :=
  match indent with
  | O => []
  | S k => T "  " ++ indentation k
  end.

Definition required_tag (required : bool) : text :=
  if required then T "required" else T "optional".

(** The lines [format_block_tree] appends for one block of its loop. *)
Fixpoint format_block (indent : nat) (block : block_node) : list text :=
  match block with
  | BlockNode name min_items attributes blocks =>
      (indentation indent ++ T "- " ++ name ++ T " (min_items=" ++ str_of_int min_items ++ T ")")
      :: map (fun attr =>
                indentation (S indent) ++ T "- " ++ Schema.name attr
                  ++ T " (" ++ required_tag (required attr) ++ T ")")
             attributes
      ++ (fix loop (blocks : list block_node) : list text :=
            match blocks with
            | [] => []
            | b :: rest => format_block (S indent) b ++ loop rest
            end) blocks
  end.

Definition format_block_tree (blocks : list block_node) (indent : nat) : list text :=
  flat_map (format_block indent) blocks.

(** The prompt base: built once, before any task. *)
Definition schema_summary (resource_type : text) (arguments : list attribute)
    (block_tree : list block_node) : text :=
  let schema_summary :=
    T "You are generating Terraform code for resource " ++ resource_type ++ T "." ++ nl
      ++ T "Arguments:" ++ nl in
  let schema_summary :=
    fold_left (fun acc arg =>
                 acc ++ T "- " ++ name arg ++ T " (" ++ required_tag (required arg) ++ T ")" ++ nl)
              arguments schema_summary in
  schema_summary ++ nl ++ T "Nested Block Tree:" ++ nl ++ join nl (format_block_tree block_tree O).

Record agent : Type := Agent {
  role : text;
  goal : text;
  backstory : text;
  allow_delegation : bool
}.

Record task : Type := Task {
  description : text;
  expected_output : text;
  task_agent : agent
}.

Definition variables_agent : agent :=
  Agent (T "Terraform Variables Generator")
        (T "Generate variables.tf with exact schema descriptions")
        (T "You generate clean, accurate Terraform variable definitions based on schema structure and exact markdown documentation.")
        false.

Definition main_agent : agent :=
  Agent (T "Terraform Main Generator")
        (T "Generate main.tf file referencing variables correctly")
        (T "You create a valid main.tf file.")
        false.

Definition outputs_agent : agent :=
  Agent (T "Terraform Outputs Generator")
        (T "Generate outputs.tf with useful resource attributes")
        (T "You generate helpful Terraform outputs for users to use in other modules.")
        false.

Definition variables_description (schema_summary markdown_content : text) : text :=
  schema_summary ++ nl ++ nl
  ++ T "Use the markdown below to extract the exact description text for each argument and block." ++ nl
  ++ nl
  ++ T "--- START MARKDOWN ---" ++ nl
  ++ markdown_content ++ nl
  ++ T "--- END MARKDOWN ---" ++ nl
  ++ nl
  ++ T "Instructions for generating variables.tf:" ++ nl
  ++ nl
  ++ T "1. VARIABLE INCLUSION:" ++ nl
  ++ T "   - Generate a valid `variables.tf` file" ++ nl
  ++ T "   - Include ALL variables from the schema, both required and optional" ++ nl
  ++ T "   - Do NOT include the Timeouts block as a variable" ++ nl
  ++ nl
  ++ T "2. VARIABLE TYPES:" ++ nl
  ++ T "   - Use the correct Terraform type for each variable based on the schema" ++ nl
  ++ T "   - For simple types: use `string`, `number`, `bool`" ++ nl
  ++ T "   - For nested structures: use `object({...})` or `list(object({...}))`" ++ nl
  ++ T "   - For maps: use `map(string)`, `map(object({...}))`, etc." ++ nl
  ++ T "   - For lists: use `list(string)`, `list(object({...}))`, etc." ++ nl
  ++ nl
  ++ T "3. DEFAULT VALUES:" ++ nl
  ++ T "   - All optional variables MUST have a default value" ++ nl
  ++ T "   - Required variables must NOT have a default value" ++ nl
  ++ T "   - Default values by type:" ++ nl
  ++ T "     * Optional string variables: `default = null`" ++ nl
  ++ T "     * Optional number variables: `default = null`" ++ nl
  ++ T "     * Optional bool variables: `default = null`" ++ nl
  ++ T "     * Optional object variables: `default = {{}}`" ++ nl
  ++ T "     * Optional map variables: `default = {{}}`" ++ nl
  ++ T "     * Optional list variables: `default = []`" ++ nl
  ++ nl
  ++ T "4. OBJECT AND MAP DEFINITIONS:" ++ nl
  ++ T "   - When defining `object()` types, wrap each property with `optional()` if that property does not require input" ++ nl
  ++ T "   - Example: `object({{name = string, location = optional(string), tags = optional(map(string))}})`" ++ nl
  ++ T "   - For nested objects, apply `optional()` consistently at each nesting level" ++ nl
  ++ nl
  ++ T "5. DESCRIPTIONS:" ++ nl
  ++ T "   - Every variable MUST have a `description` property" ++ nl
  ++ T "   - Copy the description text EXACTLY from the markdown documentation" ++ nl
  ++ T "   - The `description` property MUST be the LAST property in each variable block" ++ nl
  ++ T "   - For simple variables (string, number, bool, simple lists): use single-line or standard multi-line descriptions" ++ nl
  ++ T "   - For complex variables (objects, maps with multiple properties): use extensive descriptions with the format:" ++ nl
  ++ T "     description = <<DESCRIPTION" ++ nl
  ++ T "     [Main description from markdown]" ++ nl
  ++ T "     Properties:" ++ nl
  ++ T "     - property_name: description of this property" ++ nl
  ++ T "     - nested_property: description of nested property" ++ nl
  ++ T "     DESCRIPTION" ++ nl
  ++ T "   - The markers `<<DESCRIPTION` and `DESCRIPTION` are LITERAL text to be used" ++ nl
  ++ nl
  ++ T "6. FORMATTING:" ++ nl
  ++ T "   - Use consistent indentation (2 spaces per level)" ++ nl
  ++ T "   - Place each variable in a separate `variable` block" ++ nl
  ++ T "   - Order variables logically: required variables first, then optional variables" ++ nl
  ++ T "   - Do NOT include any comments in the code" ++ nl
  ++ nl
  ++ T "7. OUTPUT REQUIREMENTS:" ++ nl
  ++ T "   - Output ONLY raw Terraform HCL code" ++ nl
  ++ T "   - Do NOT wrap the output in markdown code blocks (no ```, no backticks)" ++ nl
  ++ T "   - Do NOT include any commentary, explanations, or extra text" ++ nl
  ++ T "   - The output should be ready to write directly to a .tf file".

Definition main_description (schema_summary resource_type : text) : text :=
  schema_summary ++ nl ++ nl
  ++ T "Generate a valid Terraform `main.tf` file that creates the resource " ++ resource_type ++ T "." ++ nl
  ++ nl
  ++ T "Instructions for generating main.tf:" ++ nl
  ++ nl
  ++ T "1. RESOURCE DEFINITION:" ++ nl
  ++ T "   - Create a single resource block for the resource type" ++ nl
  ++ T "   - Do NOT include a provider block or provider configuration" ++ nl
  ++ T "   - Do NOT include the Timeouts block" ++ nl
  ++ nl
  ++ T "2. RESOURCE NAMING (CAF CONVENTIONS):" ++ nl
  ++ T "   - The resource label (local identifier after the resource type) MUST use the exact abbreviation from Microsoft's Cloud Adoption Framework (CAF)" ++ nl
  ++ T "   - Find the abbreviation by matching the Azure resource type in the official CAF documentation:" ++ nl
  ++ T "     https://raw.githubusercontent.com/MicrosoftDocs/cloud-adoption-framework/refs/heads/main/docs/ready/azure-best-practices/resource-abbreviations.md" ++ nl
  ++ T "   - Example: For Route Server (Microsoft.Network/virtualHubs), use 'rtserv':" ++ nl
  ++ T "     resource " ++ dq ++ T "azurerm_route_server" ++ dq ++ T " " ++ dq ++ T "rtserv" ++ dq ++ T " {{ ... }}" ++ nl
  ++ T "   - Example: For Storage Account (Microsoft.Storage/storageAccounts), use 'st':" ++ nl
  ++ T "     resource " ++ dq ++ T "azurerm_storage_account" ++ dq ++ T " " ++ dq ++ T "st" ++ dq ++ T " {{ ... }}" ++ nl
  ++ nl
  ++ T "3. VARIABLE REFERENCES:" ++ nl
  ++ T "   - Reference all simple arguments (strings, numbers, bools, simple lists) using `var.variable_name`" ++ nl
  ++ T "   - For required arguments: directly use `var.variable_name`" ++ nl
  ++ T "   - For optional arguments with defaults: use `var.variable_name` (Terraform will use the default if not provided)" ++ nl
  ++ nl
  ++ T "4. DYNAMIC BLOCKS:" ++ nl
  ++ T "   - Use `dynamic` blocks ONLY for properties listed in the Nested Block Tree" ++ nl
  ++ T "   - Do NOT use dynamic blocks for simple arguments" ++ nl
  ++ T "   - Each dynamic block must use the exact block name from the schema" ++ nl
  ++ nl
  ++ T "5. DYNAMIC BLOCK SYNTAX:" ++ nl
  ++ T "   - Use `for_each` with implicit iterators" ++ nl
  ++ T "   - The iterator name MUST match the block name (implicit iterator pattern)" ++ nl
  ++ T "   - Do NOT create custom iterator names" ++ nl
  ++ T "   - Access values using `block_name.value` syntax" ++ nl
  ++ T "   - Example:" ++ nl
  ++ T "     dynamic " ++ dq ++ T "identity" ++ dq ++ T " {{" ++ nl
  ++ T "       for_each = var.identity != null ? [var.identity] : []" ++ nl
  ++ T "       content {{" ++ nl
  ++ T "         type = identity.value.type" ++ nl
  ++ T "         identity_ids = identity.value.identity_ids" ++ nl
  ++ T "       }}" ++ nl
  ++ T "     }}" ++ nl
  ++ nl
  ++ T "6. NESTED DYNAMIC BLOCKS:" ++ nl
  ++ T "   - When nesting dynamic blocks, each level accesses its parent via `parent_block_name.value`" ++ nl
  ++ T "   - Do NOT use `var.*` to access variables inside nested content blocks" ++ nl
  ++ T "   - Access parent dynamic block properties only via the iterator value reference" ++ nl
  ++ T "   - Example:" ++ nl
  ++ T "     dynamic " ++ dq ++ T "site_config" ++ dq ++ T " {{" ++ nl
  ++ T "       for_each = var.site_config != null ? [var.site_config] : []" ++ nl
  ++ T "       content {{" ++ nl
  ++ T "         dynamic " ++ dq ++ T "cors" ++ dq ++ T " {{" ++ nl
  ++ T "           for_each = site_config.value.cors != null ? [site_config.value.cors] : []" ++ nl
  ++ T "           content {{" ++ nl
  ++ T "             allowed_origins = cors.value.allowed_origins" ++ nl
  ++ T "           }}" ++ nl
  ++ T "         }}" ++ nl
  ++ T "       }}" ++ nl
  ++ T "     }}" ++ nl
  ++ nl
  ++ T "7. CONTENT BLOCKS:" ++ nl
  ++ T "   - Do NOT use content{{}} blocks at the root resource level" ++ nl
  ++ T "   - Content blocks should ONLY appear inside dynamic blocks" ++ nl
  ++ T "   - The content block defines the structure of each iteration in a dynamic block" ++ nl
  ++ nl
  ++ T "8. CONDITIONAL LOGIC:" ++ nl
  ++ T "   - For optional blocks, use conditional expressions in for_each:" ++ nl
  ++ T "     for_each = var.block_name != null ? [var.block_name] : []" ++ nl
  ++ T "   - For optional lists that may be empty:" ++ nl
  ++ T "     for_each = var.block_list != null ? var.block_list : []" ++ nl
  ++ T "   - This ensures the block is only created when the variable is provided" ++ nl
  ++ T "   - IMPORTANT: Do NOT combine both `!= null` AND `length() > 0` checks - choose ONE based on the default value" ++ nl
  ++ nl
  ++ T "9. FORMATTING:" ++ nl
  ++ T "   - Use consistent indentation (2 spaces per level)" ++ nl
  ++ T "   - Place simple arguments before dynamic blocks" ++ nl
  ++ T "   - Order arguments alphabetically within each section for consistency" ++ nl
  ++ T "   - Do NOT include any comments in the code" ++ nl
  ++ nl
  ++ T "10. OUTPUT REQUIREMENTS:" ++ nl
  ++ T "    - Output ONLY valid Terraform HCL code" ++ nl
  ++ T "    - Do NOT wrap the output in markdown code blocks (no ```, no backticks)" ++ nl
  ++ T "    - Do NOT include any commentary, explanations, or extra text" ++ nl
  ++ T "    - The output should be ready to write directly to a .tf file".

Definition outputs_description (resource_type : text) : text :=
  T "Generate an outputs.tf file for the resource " ++ resource_type ++ T "." ++ nl
  ++ nl
  ++ T "Instructions for generating outputs.tf:" ++ nl
  ++ nl
  ++ T "1. OUTPUT CONTENT:" ++ nl
  ++ T "   - Create a SINGLE output that exposes the resource ID" ++ nl
  ++ T "   - The output name should be: `id`" ++ nl
  ++ T "   - The output value should reference: `<resource_type>.<caf_abbreviation>.id`" ++ nl
  ++ nl
  ++ T "2. RESOURCE REFERENCE (CAF CONVENTIONS):" ++ nl
  ++ T "   - The resource reference MUST use the exact abbreviation from Microsoft's Cloud Adoption Framework (CAF)" ++ nl
  ++ T "   - This abbreviation must match the one used in main.tf" ++ nl
  ++ T "   - Find the abbreviation by matching the Azure resource type in the official CAF documentation:" ++ nl
  ++ T "     https://raw.githubusercontent.com/MicrosoftDocs/cloud-adoption-framework/refs/heads/main/docs/ready/azure-best-practices/resource-abbreviations.md" ++ nl
  ++ T "   - Example: For Route Server (Microsoft.Network/virtualHubs), use 'rtserv':" ++ nl
  ++ T "     output " ++ dq ++ T "id" ++ dq ++ T " {{" ++ nl
  ++ T "       value = azurerm_route_server.rtserv.id" ++ nl
  ++ T "     }}" ++ nl
  ++ T "   - Example: For Storage Account (Microsoft.Storage/storageAccounts), use 'st':" ++ nl
  ++ T "     output " ++ dq ++ T "id" ++ dq ++ T " {{" ++ nl
  ++ T "       value = azurerm_storage_account.st.id" ++ nl
  ++ T "     }}" ++ nl
  ++ nl
  ++ T "3. OUTPUT STRUCTURE:" ++ nl
  ++ T "   - Include a `description` property in the output block" ++ nl
  ++ T "   - The description should be: " ++ dq ++ T "The ID of the <resource_name>" ++ dq ++ nl
  ++ T "   - Example:" ++ nl
  ++ T "     output " ++ dq ++ T "id" ++ dq ++ T " {{" ++ nl
  ++ T "       description = " ++ dq ++ T "The ID of the Route Server" ++ dq ++ nl
  ++ T "       value       = azurerm_route_server.rtserv.id" ++ nl
  ++ T "     }}" ++ nl
  ++ nl
  ++ T "4. FORMATTING:" ++ nl
  ++ T "   - Use consistent indentation (2 spaces per level)" ++ nl
  ++ T "   - Align the `description` and `value` properties for readability" ++ nl
  ++ T "   - Do NOT include any comments in the code" ++ nl
  ++ nl
  ++ T "5. OUTPUT REQUIREMENTS:" ++ nl
  ++ T "   - Output ONLY valid Terraform HCL code" ++ nl
  ++ T "   - Do NOT wrap the output in markdown code blocks (no ```, no backticks)" ++ nl
  ++ T "   - Do NOT include any commentary, explanations, or extra text" ++ nl
  ++ T "   - The output should be ready to write directly to a .tf file".

Definition variables_task (schema_summary markdown_content : text) : task :=
  Task (variables_description schema_summary markdown_content)
       (T "Clean variables.tf with exact schema and literal description match.")
       variables_agent.

Definition main_task (schema_summary resource_type : text) : task :=
  Task (main_description schema_summary resource_type)
       (T "Valid main.tf file only.")
       main_agent.

Definition outputs_task (resource_type : text) : task :=
  Task (outputs_description resource_type)
       (T "Terraform outputs.tf only.")
       outputs_agent.

(** The generation backend behind [crew.kickoff()]: given the three
    tasks, it fails, or leaves on each task an output or [None]. *)
Definition backend : Type :=
  task -> task -> task -> exn + (option text * option text * option text).

Definition terraform_tf (provider_supplier provider_name provider_version : text) : text :=
  T "terraform {" ++ nl
  ++ T "  required_version = " ++ dq ++ T "~> 1.8" ++ dq ++ nl
  ++ T "  required_providers {" ++ nl
  ++ T "    " ++ provider_name ++ T " = {" ++ nl
  ++ T "      source  = " ++ dq ++ provider_supplier ++ T "/" ++ provider_name ++ dq ++ nl
  ++ T "      version = " ++ dq ++ T "~> " ++ provider_version ++ dq ++ nl
  ++ T "    }" ++ nl
  ++ T "  }" ++ nl
  ++ T "}" ++ nl.

(** The dict [generated], in insertion order; [raw] is
    [t.output.raw if t.output else ""] for each task. *)
Definition generated (provider_supplier provider_name provider_version : text)
    (variables_raw main_raw outputs_raw : option text) : list (text * text) :=
  [ (T "variables.tf", clean_content (default [] variables_raw));
    (T "main.tf", clean_content (default [] main_raw));
    (T "outputs.tf", clean_content (default [] outputs_raw));
    (T "terraform.tf", terraform_tf provider_supplier provider_name provider_version) ].

(** [str.lower] on ASCII text: the capital letters A to Z become small
    letters.  Other characters are left as they are, which is not what
    [str.lower] does to capital letters outside ASCII; the properties
    that name the folder assume an ASCII resource type. *)
Definition lower (s : text) : text :=
  map (fun c => if (65 <=? c) && (c <=? 90) then c + 32 else c) s.

Definition output_folder (resource_type : text) : text :=
  path_join (T "modules") (lower resource_type).

(** Leaving the [with] block closes the file: all that was written since
    it was opened is in the file. *)
Definition close_world (p content : text) (w : world) : world :=
  World (dirs w) (<[p := TextFile content]> (files w)) (stdout w).

(** The writer as the sequence of operations it performs on the working
    directory and the console, in program order.  [FileClose] carries
    what was written to the file it closes. *)
Inductive op : Type :=
| Makedirs (path : text)
| OpenForWriting (path : text)
| FileWrite (path content : text)
| ConsolePrint (line : text)
| FileClose (path content : text).

(** One operation of a run that nothing interrupts.  The write is
    buffered: how much of the content is in the file before the file is
    closed is left open by the code, and [may_step] below gives every
    case; here the write is shown with the whole content in the file,
    which is the state closing the file leads to in every case. *)
Definition step (o : op) (w : world) : world :=
  match o with
  | Makedirs p => makedirs_world p w
  | OpenForWriting p => open_w_world p w
  | FileWrite p c => write_world p c w
  | ConsolePrint l => World (dirs w) (files w) (stdout w ++ [l])
  | FileClose p c => close_world p c w
  end.

Definition run_ops (ops : list op) (w : world) : world :=
  fold_left (fun w o => step o w) ops w.

(** One operation as the working directory shows it: after a write, any
    part of the content, from its start, can be in the file (the part is
    cut between two characters). *)
Definition may_step (o : op) (w w' : world) : Prop :=
  match o with
  | FileWrite p c => exists k : nat, w' = write_world p (take k c) w
  | _ => w' = step o w
  end.

(** [stops ops w w']: the run of [ops] from [w], stopped at some point
    (a failure, a signal), leaves [w']. *)
Inductive stops : list op -> world -> world -> Prop :=
| stop_here (ops : list op) (w : world) : stops ops w w
| stop_later (o : op) (ops : list op) (w w1 w' : world) :
    may_step o w w1 -> stops ops w1 w' -> stops (o :: ops) w w'.

(** One turn of the loop over [generated.items()]. *)
Definition write_file_ops (output_folder : text) (item : text * text) : list op :=
  let '(filename, content) := item in
  if bool_decide (content = []) then []
  else
    let path := path_join output_folder filename in
    [OpenForWriting path; FileWrite path content;
     ConsolePrint ([0x2705] ++ T " Written: " ++ path);
     FileClose path content].

Definition write_ops (output_folder : text) (generated : list (text * text)) : list op :=
  Makedirs output_folder :: flat_map (write_file_ops output_folder) generated.

(** The three tasks, as the script builds them from the inputs it has
    loaded. *)
Definition tasks (resource_type : text) (arguments : list attribute)
    (block_tree : list block_node) (markdown_content : text) : task * task * task :=
  let schema_summary := schema_summary resource_type arguments block_tree in
  (variables_task schema_summary markdown_content,
   main_task schema_summary resource_type,
   outputs_task resource_type).

(** The script from the prompt base to the end, on the inputs it has
    loaded: the command-line arguments, the lists [arguments] and
    [block_tree] of the schema summary, and the documentation text. *)
Definition main (crew : backend)
    (provider_supplier provider_name provider_version resource_type : text)
    (arguments : list attribute) (block_tree : list block_node)
    (markdown_content : text) : M unit :=
  let '(variables_task, main_task, outputs_task) :=
    tasks resource_type arguments block_tree markdown_content in
  match crew variables_task main_task outputs_task with
  | inl e => raise e
  | inr (variables_raw, main_raw, outputs_raw) =>
      let generated :=
        generated provider_supplier provider_name provider_version
                  variables_raw main_raw outputs_raw in
      modify (run_ops (write_ops (output_folder resource_type) generated))
  end.

End Crew.

(** * Stating the properties *)

(** ** Reading a schema document and a schema summary *)

Module Reading.

Import Extractor.

(** An attribute is kept when it is required or not computed. *)
Definition included (a : attr_schema) : bool :=
  default false (attr_required a) || negb (default false (attr_computed a)).

Definition block_attributes_of (b : block_schema) : dict attr_schema :=
  match b with Block attributes _ => default [] attributes end.

Definition block_types_of (b : block_schema) : list (text * block_type_schema) :=
  match b with Block _ block_types => default [] block_types end.

(** The node [parse_block] builds for one entry of [block_types]. *)
Definition node_of (item : text * block_type_schema) : block_node :=
  match item with
  | (block_name, BlockType block min_items) =>
      BlockNode block_name (default 0%Z min_items)
                (fst (parse_block block)) (snd (parse_block block))
  end.

(** [source_attribute path b n a]: in the document, the block reached from
    [b] through the nested blocks named in [path] declares the attribute
    [n] with the flags [a]. *)
Fixpoint source_attribute (path : list text) (b : block_schema)
    (n : text) (a : attr_schema) : Prop :=
  match path with
  | [] => In (n, a) (block_attributes_of b)
  | block_name :: path' =>
      exists b' min_items,
        In (block_name, BlockType b' min_items) (block_types_of b)
        /\ source_attribute path' b' n a
  end.

(** [summary_attribute path attrs blocks attr]: in the extractor's output,
    [attr] is listed in the block reached through [path], the empty path
    standing for the flat argument list. *)
Fixpoint summary_attribute (path : list text) (attrs : list attribute)
    (blocks : list block_node) (attr : attribute) : Prop :=
  match path with
  | [] => In attr attrs
  | block_name :: path' =>
      exists node,
        In node blocks /\ Schema.block_name node = block_name
        /\ summary_attribute path' (block_attributes node) (block_blocks node) attr
  end.

(** Every dict of the document has distinct keys, as [json.load] builds
    them. *)
Fixpoint distinct_keys_to (depth : nat) (b : block_schema) : Prop :=
  List.NoDup (keys (block_attributes_of b))
  /\ List.NoDup (keys (block_types_of b))
  /\ match depth with
     | O => True
     | S d =>
         forall block_name b' min_items,
           In (block_name, BlockType b' min_items) (block_types_of b) ->
           distinct_keys_to d b'
     end.

End Reading.

(** ** Reading the outcome of a run *)

Module Writing.

Import Crew.

(** What [path_join] puts before a relative name. *)
Definition dir_prefix (a : text) : text :=
  if bool_decide (a = []) then []
  else if bool_decide (last a = Some 47) then a
  else a ++ T "/".

(** The files of [generated] as a map update, one entry at a time. *)
Definition put_item (folder : text) (m : gmap text file) (item : text * text)
    : gmap text file :=
  if bool_decide (snd item = []) then m
  else <[path_join folder (fst item) := TextFile (snd item)]> m.


End Writing.

(** ** Example inputs *)

Module Examples.

Import Sanitizer Extractor Crew.

(** A text holding a comment the second run deletes; the first run
    deletes the inner comment only, and what is left reads as a comment. *)
Definition nested_comment : text := T "/*/** x */* y */".

(** Backend output as it comes: fenced, with a line comment and a block
    comment. *)
Definition fenced_commented : text :=
  T "```hcl" ++ nl
  ++ T "# storage account" ++ nl
  ++ T "/* naming: CAF */" ++ nl
  ++ T "// end" ++ nl
  ++ T "```".

(** A storage-account-like resource: [id] is computed only, [location]
    is optional and computed, [identity] leaves [min_items] out. *)
Definition example_block : block_schema :=
  Block
    (Some [ (T "name", AttrSchema (Some true) None);
            (T "id", AttrSchema None (Some true));
            (T "location", AttrSchema (Some false) (Some true));
            (T "tags", AttrSchema None None) ])
    (Some [ (T "identity",
             BlockType
               (Block (Some [ (T "type", AttrSchema (Some true) None);
                              (T "principal_id", AttrSchema None (Some true)) ])
                      None)
               None);
            (T "network_rules",
             BlockType
               (Block (Some [ (T "default_action", AttrSchema (Some true) (Some false)) ])
                      (Some [ (T "private_link_access",
                               BlockType (Block None None) (Some 0%Z)) ]))
               (Some 1%Z)) ]).

Definition example_schema : schema_document :=
  SchemaDocument
    (Some [ (T "registry.terraform.io/hashicorp/azurerm",
             ProviderSchema
               (Some [ (T "azurerm_storage_account",
                        ResourceSchema (Some 4%Z) (Some example_block));
                       (T "azurerm_placeholder", ResourceSchema None None) ])) ]).

Definition storage_account : text := T "azurerm_storage_account".

Definition variables_name : text :=
  T "variable " ++ dq ++ T "name" ++ dq ++ T " {" ++ nl
  ++ T "  type = string" ++ nl
  ++ T "}".

(** A resource body whose naming token is [st]. *)
Definition body_st : text :=
  T "resource " ++ dq ++ T "azurerm_storage_account" ++ dq ++ T " " ++ dq ++ T "st" ++ dq
    ++ T " {" ++ nl
  ++ T "  name = var.name" ++ nl
  ++ T "}".


Definition outputs_st : text :=
  T "output " ++ dq ++ T "id" ++ dq ++ T " {" ++ nl
  ++ T "  value = azurerm_storage_account.st.id" ++ nl
  ++ T "}".


Definition crew_agree : backend :=
  fun _ _ _ => inr (Some variables_name, Some body_st, Some outputs_st).


Definition empty_world : world := World ∅ ∅ [].

(** A working directory that holds a module written earlier. *)
Definition earlier_world : world :=
  World {[ T "modules"; T "modules/azurerm_storage_account" ]}
        {[ T "modules/azurerm_storage_account/variables.tf" := TextFile (T "variable old {}") ]}
        [].

Definition example_arguments : list attribute :=
  fst (parse_block example_block).

Definition example_block_tree : list block_node :=
  snd (parse_block example_block).


Definition example_ops : list op :=
  write_ops (output_folder storage_account)
    (generated (T "hashicorp") (T "azurerm") (T "4.0.0")
       (Some variables_name) (Some body_st) (Some outputs_st)).

End Examples.

(** ** Reading nested blocks, and the documentation page of a resource *)

Module Blocks.

Import Extractor Reading.

(** [source_block path b n bt]: in the document, the block reached from
    [b] through [path] declares the nested block type [n] as [bt]. *)
Fixpoint source_block (path : list text) (b : block_schema)
    (n : text) (bt : block_type_schema) : Prop :=
  match path with
  | [] => In (n, bt) (block_types_of b)
  | block_name :: path' =>
      exists b' min_items,
        In (block_name, BlockType b' min_items) (block_types_of b)
        /\ source_block path' b' n bt
  end.

(** [summary_block path blocks node]: in the block tree [blocks], [node]
    is one of the blocks listed under the block reached through [path]. *)
Fixpoint summary_block (path : list text) (blocks : list block_node)
    (node : block_node) : Prop :=
  match path with
  | [] => In node blocks
  | block_name :: path' =>
      exists parent,
        In parent blocks /\ Schema.block_name parent = block_name
        /\ summary_block path' (block_blocks parent) node
  end.

(** The key under which the catalog of a provider is looked up. *)
Definition provider_key (provider_supplier provider_name : text) : text :=
  T "registry.terraform.io/" ++ provider_supplier ++ T "/" ++ provider_name.

(** The line the script prints first. *)
Definition banner (resource_type : text) : text :=
  nl ++ [0x1F50D] ++ T " Extracting schema for resource: " ++ resource_type ++ nl.

(** The names [download_markdown] computes. *)
Definition markdown_filename (provider_name resource_type : text) : text :=
  str_replace (provider_name ++ T "_") [] resource_type ++ T ".html.markdown".

Definition markdown_url (provider_supplier resource_type provider_name provider_version : text)
    : text :=
  (T "https://raw.githubusercontent.com/" ++ provider_supplier
     ++ T "/terraform-provider-" ++ provider_name ++ T "/v" ++ provider_version
     ++ T "/website/docs/r/")
  ++ markdown_filename provider_name resource_type.

Definition summary_path (resource_type : text) : text :=
  path_join (T "schemas") (resource_type ++ T ".json").

End Blocks.

(** ** Reading the rendered context and the console *)

Module Rendering.

Import Crew.

(** The blocks and attributes of a block tree, counted together. *)
Fixpoint block_entries (b : block_node) : nat :=
  match b with
  | BlockNode _ _ attributes blocks =>
      S (length attributes
         + (fix sum (blocks : list block_node) : nat :=
              match blocks with
              | [] => O
              | b' :: rest => (block_entries b' + sum rest)%nat
              end) blocks)
  end.

Definition tree_entries (blocks : list block_node) : nat :=
  fold_right (fun b n => (block_entries b + n)%nat) O blocks.

(** The line [schema_summary] adds for one argument. *)
Definition argument_line (arg : attribute) : text :=
  T "- " ++ name arg ++ T " (" ++ required_tag (required arg) ++ T ")" ++ nl.

(** The line the writer prints for one file. *)
Definition written_line (folder : text) (item : text * text) : text :=
  [0x2705] ++ T " Written: " ++ path_join folder (fst item).

Definition not_empty (item : text * text) : bool :=
  negb (bool_decide (snd item = [])).

End Rendering.

(** ** The generator script, from the command line to the tasks *)

Module Script.

Import Crew.

(** Reading in text mode: [\r\n] and a lone [\r] come back as [\n]. *)
Fixpoint universal_newlines (s : text) : text :=
  match s with
  | [] => []
  | c :: rest =>
      if c =? 13 then
        match rest with
        | d :: rest' =>
            if d =? 10 then 10 :: universal_newlines rest'
            else 10 :: universal_newlines rest
        | [] => [10]
        end
      else c :: universal_newlines rest
  end.

Section Loading.

(** The JSON reader and printer, on files that are not kept as values:
    [json_loads] gives the [arguments] and [block_tree] entries of the
    object a text holds, each possibly missing, or the error raised;
    [json_dumps] is the text of a summary. *)
Variable json_loads :
  text -> exn + (option (list attribute) * option (list block_node)).
Variable json_dumps : option (list attribute) -> option (list block_node) -> text.

(** [f.read()] on a file opened in text mode. *)
Definition read_text (f : file) : text :=
  match f with
  | TextFile content => universal_newlines content
  | SummaryFile arguments block_tree => universal_newlines (json_dumps arguments block_tree)
  end.

(** [json.load(f)] *)
Definition json_load (f : file)
    : exn + (option (list attribute) * option (list block_node)) :=
  match f with
  | TextFile content => json_loads (universal_newlines content)
  | SummaryFile arguments block_tree => inr (arguments, block_tree)
  end.

(** The file at a path, when [os.path.isfile] holds for it. *)
Definition file_at (p : text) : M (option file) := fun w => Returned (files w !! p) w.

Definition usage : text :=
  T "Usage: python 3_crew_terraform.py <provider_supplier> <provider_name> <provider_version> <resource_type>".

(** The whole script: the checks and the loading, then [Crew.main]. *)
Definition script (crew : backend) (argv : list text) : M unit :=
  match argv with
  | [_; provider_supplier; provider_name; provider_version; resource_type] =>
      let schema_path := path_join (T "schemas") (resource_type ++ T ".json") in
      schema_file ← file_at schema_path;
      match schema_file with
      | None =>
          print ([0x274C] ++ T " Schema file not found: " ++ schema_path);;
          sys_exit 1
      | Some f =>
          match json_load f with
          | inl e => raise e
          | inr (arguments, block_tree) =>
              let arguments := default [] arguments in
              let block_tree := default [] block_tree in
              let short_name := str_replace (provider_name ++ T "_") [] resource_type in
              let markdown_file := path_join (T "wiki") (short_name ++ T ".html.markdown") in
              markdown ← file_at markdown_file;
              match markdown with
              | None =>
                  print ([0x274C] ++ T " Markdown file not found: " ++ markdown_file);;
                  sys_exit 1
              | Some g =>
                  let markdown_content := read_text g in
                  main crew provider_supplier provider_name provider_version
                       resource_type arguments block_tree markdown_content
              end
          end
      end
  | _ => print usage;; sys_exit 1
  end.

End Loading.

(** A reader and a printer to run the examples with. *)
Definition no_json_loads (t : text)
    : exn + (option (list attribute) * option (list block_node)) :=
  inl (ValueError []).

Definition no_json_dumps (a : option (list attribute)) (b : option (list block_node))
    : text := [].

(** A working directory with the summary of the storage account and no
    documentation page. *)
Definition summary_only_world : world :=
  World {[ T "schemas" ]}
        {[ T "schemas/azurerm_storage_account.json" := SummaryFile (Some []) (Some []) ]}
        [].

End Script.

(** ** Names and paths the properties speak of *)

Module Names.

(** The capital letters A to Z. *)
Definition capital (c : N) : bool := (65 <=? c) && (c <=? 90).

(** [lower_cased s r]: [r] is [s] with each capital letter A to Z replaced
    by its small letter, 32 places further on, and every other character
    kept.  On ASCII text this is [s.lower()]. *)
Definition lower_cased (s r : text) : Prop :=
  Forall2 (fun c d => if capital c then d = c + 32 else d = c) s r.

Definition ascii_text (s : text) : bool := forallb (fun c => c <? 128) s.

(** A character of a plain name: printable ASCII, no space, no slash. *)
Definition name_char (c : N) : bool :=
  (33 <=? c) && (c <=? 126) && negb (c =? 47).

(** A plain name: one path component, made of such characters, that is
    not [.] or [..]. *)
Definition plain_name (s : text) : bool :=
  forallb name_char s
  && negb (text_eqb s []) && negb (text_eqb s (T ".")) && negb (text_eqb s (T "..")).




End Names.

Ltac by_computation :=
  repeat lazymatch goal with |- _ /\ _ => split end; vm_compute; reflexivity.


(** * Properties *)

(** ** Texts and substitution *)

Section TextFacts.

Lemma starts_with_nil_r (p : text) : starts_with p [] = true -> p = [].
Proof. destruct p; [reflexivity | discriminate]. Qed.

Lemma starts_with_head (a : N) (p s : text) :
  starts_with (a :: p) s = true -> exists s', s = a :: s' /\ starts_with p s' = true.
Proof.
  destruct s as [|b s']; simpl; [discriminate|].
  intros H. apply andb_prop in H as [Hab Hp].
  apply N.eqb_eq in Hab. subst b. eauto.
Qed.

Lemma In_take (k : nat) (s : text) (c : N) : In c (take k s) -> In c s.
Proof.
  intros H. rewrite <- (firstn_skipn k s). apply in_or_app. now left.
Qed.

Lemma In_drop (k : nat) (s : text) (c : N) : In c (drop k s) -> In c s.
Proof.
  intros H. rewrite <- (firstn_skipn k s). apply in_or_app. now right.
Qed.

Lemma filter_all (f : N -> bool) (s : text) :
  (forall c, In c s -> f c = true) -> List.filter f s = s.
Proof.
  induction s as [|a s IH]; intros H; simpl; [reflexivity|].
  rewrite (H a (or_introl eq_refl)). f_equal. apply IH.
  intros c Hc. apply H. now right.
Qed.

Lemma filter_length (f : N -> bool) (s : text) :
  (length (List.filter f s) <= length s)%nat.
Proof.
  induction s as [|a s IH]; simpl; [lia|]. destruct (f a); simpl; lia.
Qed.

Variable m : matcher.

(** A substitution whose replacements are taken from the subject adds no
    character. *)
Lemma re_sub_from_In :
  (forall s repl len c, m s = Some (repl, len) -> In c repl -> In c s) ->
  forall s skip c, In c (re_sub_from m skip s) -> In c s.
Proof.
  intros Hm. induction s as [|a s IH]; intros skip c.
  - destruct skip; simpl; tauto.
  - destruct skip as [|k]; simpl.
    + destruct (m (a :: s)) as [[repl len]|] eqn:E.
      * intros H. apply in_app_or in H as [H|H].
        -- exact (Hm _ _ _ _ E H).
        -- right. exact (IH _ _ H).
      * intros [H|H]; [now left | right; exact (IH _ _ H)].
    + intros H. right. exact (IH _ _ H).
Qed.

(** Where the pattern matches nowhere, the subject is returned as it is. *)
Lemma re_sub_no_match (s : text) :
  matches_somewhere m s = false -> re_sub m s = s.
Proof.
  unfold re_sub. induction s as [|a s IH]; simpl; [reflexivity|].
  destruct (m (a :: s)) as [[repl len]|]; [discriminate|].
  intros H. f_equal. exact (IH H).
Qed.

Hypothesis m_deletes : forall s repl len, m s = Some (repl, len) -> repl = [].

Lemma re_sub_from_length (s : text) :
  forall skip, (length (re_sub_from m skip s) <= length s)%nat.
Proof.
  induction s as [|a s IH]; intros skip.
  - destruct skip; simpl; lia.
  - destruct skip as [|k]; simpl.
    + destruct (m (a :: s)) as [[repl len]|] eqn:E.
      * rewrite (m_deletes _ _ _ E). simpl. specialize (IH (Nat.pred len)). lia.
      * simpl. specialize (IH O). lia.
    + specialize (IH k). lia.
Qed.

(** A deleting substitution that matches makes the text shorter. *)
Lemma re_sub_match_shorter (s : text) :
  matches_somewhere m s = true -> (length (re_sub m s) < length s)%nat.
Proof.
  unfold re_sub. induction s as [|a s IH]; simpl; [discriminate|].
  destruct (m (a :: s)) as [[repl len]|] eqn:E.
  - intros _. rewrite (m_deletes _ _ _ E). simpl.
    pose proof (re_sub_from_length s (Nat.pred len)). lia.
  - intros H. simpl. specialize (IH H). lia.
Qed.

End TextFacts.

(** ** The sanitiser *)

Module SanitizerFacts.

Import Sanitizer Examples.

Example clean_content_fenced :
  clean_content (T "```hcl" ++ nl ++ T "name = var.name" ++ nl ++ T "```")
  = T "name = var.name".
Proof. vm_compute. reflexivity. Qed.

Example clean_content_doc_comment :
  clean_content (T "/** generated */ a = `b`" ++ [0x200b; 0xFEFF] ++ T "  ") = T "a = b".
Proof. vm_compute. reflexivity. Qed.

Lemma lstrip_In (s : text) (c : N) : In c (lstrip s) -> In c s.
Proof.
  induction s as [|a s IH]; simpl; [tauto|].
  destruct (is_space a); [intros H; right; exact (IH H) | tauto].
Qed.

Lemma rstrip_In (s : text) (c : N) : In c (rstrip s) -> In c s.
Proof.
  unfold rstrip. intros H. apply in_rev in H. apply lstrip_In in H.
  now apply in_rev.
Qed.

Lemma strip_In (s : text) (c : N) : In c (strip s) -> In c s.
Proof. unfold strip. intros H. apply lstrip_In. exact (rstrip_In _ _ H). Qed.

Lemma lstrip_length (s : text) : (length (lstrip s) <= length s)%nat.
Proof.
  induction s as [|a s IH]; simpl; [lia|]. destruct (is_space a); simpl; lia.
Qed.

Lemma strip_length (s : text) : (length (strip s) <= length s)%nat.
Proof.
  unfold strip, rstrip. rewrite length_rev.
  pose proof (lstrip_length (rev (lstrip s))) as H. rewrite length_rev in H.
  pose proof (lstrip_length s). lia.
Qed.

(** Leading white space is dropped up to the first other character. *)
Lemma lstrip_app_keep (x y : text) (c : N) :
  is_space c = false -> lstrip (x ++ c :: y) = lstrip x ++ c :: y.
Proof.
  intros Hc. induction x as [|a x IH]; simpl.
  - now rewrite Hc.
  - destruct (is_space a); [exact IH | reflexivity].
Qed.

Lemma lstrip_head (s : text) :
  lstrip s = [] \/ exists c r, lstrip s = c :: r /\ is_space c = false.
Proof.
  induction s as [|a s IH]; simpl; [now left|].
  destruct (is_space a) eqn:E; [exact IH | right; eauto].
Qed.

Lemma rstrip_cons_keep (c : N) (s : text) :
  is_space c = false -> rstrip (c :: s) = c :: rstrip s.
Proof.
  intros Hc. unfold rstrip. simpl.
  rewrite <- (app_nil_r (rev s ++ [c])), <- app_assoc. simpl.
  rewrite (lstrip_app_keep _ _ _ Hc), rev_app_distr. reflexivity.
Qed.

Lemma lstrip_idem (s : text) : lstrip (lstrip s) = lstrip s.
Proof.
  destruct (lstrip_head s) as [H | (c & r & H & Hc)]; rewrite H; simpl;
    [reflexivity | now rewrite Hc].
Qed.

Lemma strip_idem (s : text) : strip (strip s) = strip s.
Proof.
  unfold strip.
  assert (Hl : lstrip (rstrip (lstrip s)) = rstrip (lstrip s)).
  { destruct (lstrip_head s) as [H | (c & r & H & Hc)]; rewrite H.
    - reflexivity.
    - rewrite (rstrip_cons_keep _ _ Hc). simpl. now rewrite Hc. }
  rewrite Hl. unfold rstrip at 1 2. rewrite rev_involutive, lstrip_idem.
  reflexivity.
Qed.

Lemma fence_match_In (s repl : text) (len : nat) (c : N) :
  fence_match s = Some (repl, len) -> In c repl -> In c s.
Proof.
  unfold fence_match. destruct (starts_with fence s); [|discriminate].
  destruct (find nl (drop 3 s)) as [j|].
  - destruct (find fence (drop (S j) (drop 3 s))) as [k|].
    + intros [= <- _] H. eauto using In_take, In_drop.
    + destruct (find fence (drop 3 s)) as [k|]; [|discriminate].
      intros [= <- _] H. eauto using In_take, In_drop.
  - destruct (find fence (drop 3 s)) as [k|]; [|discriminate].
    intros [= <- _] H. eauto using In_take, In_drop.
Qed.

Lemma comment_match_deletes (s repl : text) (len : nat) :
  comment_match s = Some (repl, len) -> repl = [].
Proof.
  unfold comment_match. destruct (starts_with comment_open s); [|discriminate].
  destruct (find comment_close (drop 3 s)); [|discriminate]. now intros [= <- _].
Qed.

Lemma comment_match_In (s repl : text) (len : nat) (c : N) :
  comment_match s = Some (repl, len) -> In c repl -> In c s.
Proof. intros H. rewrite (comment_match_deletes _ _ _ H). intros []. Qed.

(** The fence pattern starts with a backtick. *)
Lemma fence_no_match (s : text) :
  ~ In backtick s -> matches_somewhere fence_match s = false.
Proof.
  induction s as [|a s IH]; intros H; simpl; [reflexivity|].
  assert (E : fence_match (a :: s) = None).
  { unfold fence_match. destruct (starts_with fence (a :: s)) eqn:Es; [|reflexivity].
    apply starts_with_head in Es as (s' & [= -> _] & _).
    exfalso. apply H. now left. }
  rewrite E. apply IH. intros Hs. apply H. now right.
Qed.

(** The sanitiser as the chain of its passes: the two codec round trips
    come down to dropping the surrogates. *)
Lemma clean_content_passes (x : text) :
  clean_content x =
  strip (encode_utf8_ignore
    (strip (List.filter (fun c => negb (is_invisible c))
      (strip (re_sub comment_match
        (List.filter (fun c => negb (c =? backtick))
          (re_sub fence_match x))))))).
Proof.
  unfold clean_content, decode_utf8_ignore, encode_utf8_sig_ignore, decode_utf8_sig.
  rewrite N.eqb_refl. f_equal.
  unfold encode_utf8_ignore. rewrite filter_all; [reflexivity|].
  intros c Hc. apply filter_In in Hc. tauto.
Qed.

(** What every character of sanitised text satisfies. *)
Lemma clean_content_chars (x : text) (c : N) :
  In c (clean_content x) ->
  c <> backtick /\ is_invisible c = false /\ is_surrogate c = false.
Proof.
  rewrite clean_content_passes. intros H.
  apply strip_In in H. unfold encode_utf8_ignore in H.
  apply filter_In in H as [H Hsur].
  apply strip_In in H. apply filter_In in H as [H Hinv].
  apply strip_In in H.
  apply (re_sub_from_In comment_match comment_match_In) in H.
  apply filter_In in H as [_ Hbt].
  repeat split.
  - intros ->. discriminate.
  - now destruct (is_invisible c).
  - now destruct (is_surrogate c).
Qed.

Lemma clean_content_stripped (x : text) : strip (clean_content x) = clean_content x.
Proof. unfold clean_content. apply strip_idem. Qed.

(** On sanitised text every pass but the comment pass changes nothing. *)
Lemma clean_content_again (x : text) :
  clean_content (clean_content x) =
  strip (encode_utf8_ignore
    (strip (List.filter (fun c => negb (is_invisible c))
      (strip (re_sub comment_match (clean_content x)))))).
Proof.
  rewrite (clean_content_passes (clean_content x)).
  rewrite (re_sub_no_match fence_match (clean_content x)).
  2:{ apply fence_no_match. intros H. now apply clean_content_chars in H as [H _]. }
  rewrite (filter_all _ (clean_content x)); [reflexivity|].
  intros c Hc. apply clean_content_chars in Hc as [Hc _].
  apply negb_true_iff, N.eqb_neq. exact Hc.
Qed.

Lemma find_fence_none (s : text) : ~ In backtick s -> find fence s = None.
Proof.
  induction s as [|a s IH]; intros H; [reflexivity|].
  assert (E : starts_with fence (a :: s) = false).
  { destruct (starts_with fence (a :: s)) eqn:Es; [|reflexivity].
    apply starts_with_head in Es as (s' & [= -> _] & _).
    exfalso. apply H. now left. }
  change (find fence (a :: s))
    with (if starts_with fence (a :: s) then Some O else S <$> find fence s).
  rewrite E, IH; [reflexivity|]. intros Hs. apply H. now right.
Qed.

(** C5, as stated, fails: sanitising [/*/** x */* y */] gives [/** y */], and
    sanitising that gives the empty text. *)
Lemma clean_content_not_idempotent :
  clean_content nested_comment = T "/** y */"
  /\ clean_content (clean_content nested_comment) = []
  /\ clean_content (clean_content nested_comment) <> clean_content nested_comment.
Proof.
  split; [vm_compute; reflexivity|]. split; [vm_compute; reflexivity|].
  vm_compute. discriminate.
Qed.

(** C5, amended: sanitising twice gives the same text as sanitising once
    exactly when the sanitised text holds no block comment
    [/** ... */] for the comment pass to delete. *)
Theorem clean_content_idempotent_iff (x : text) :
  clean_content (clean_content x) = clean_content x
  <-> matches_somewhere comment_match (clean_content x) = false.
Proof.
  rewrite clean_content_again. split.
  - intros H.
    destruct (matches_somewhere comment_match (clean_content x)) eqn:E; [|reflexivity].
    exfalso.
    pose proof (re_sub_match_shorter comment_match comment_match_deletes _ E) as Hlt.
    apply (f_equal (@length N)) in H. revert H Hlt.
    generalize (re_sub comment_match (clean_content x)). intros y H Hlt.
    pose proof (strip_length y).
    pose proof (filter_length (fun c => negb (is_invisible c)) (strip y)).
    pose proof (strip_length (List.filter (fun c => negb (is_invisible c)) (strip y))).
    pose proof (filter_length (fun c => negb (is_surrogate c))
                  (strip (List.filter (fun c => negb (is_invisible c)) (strip y)))).
    pose proof (strip_length (encode_utf8_ignore
                  (strip (List.filter (fun c => negb (is_invisible c)) (strip y))))).
    unfold encode_utf8_ignore in *. lia.
  - intros E. rewrite (re_sub_no_match _ _ E), clean_content_stripped.
    rewrite (filter_all _ (clean_content x)), clean_content_stripped.
    + unfold encode_utf8_ignore.
      rewrite (filter_all _ (clean_content x)); [apply clean_content_stripped|].
      intros c Hc. apply clean_content_chars in Hc as (_ & _ & Hc). now rewrite Hc.
    + intros c Hc. apply clean_content_chars in Hc as (_ & Hc & _). now rewrite Hc.
Qed.

(** C6, as stated, fails: the fence goes, the three comments stay. *)
Lemma clean_content_keeps_comments :
  clean_content fenced_commented
  = T "# storage account" ++ nl ++ T "/* naming: CAF */" ++ nl ++ T "// end"
  /\ contains (T "#") (clean_content fenced_commented) = true
  /\ contains (T "/*") (clean_content fenced_commented) = true
  /\ contains (T "*/") (clean_content fenced_commented) = true
  /\ contains (T "//") (clean_content fenced_commented) = true.
Proof. by_computation. Qed.

(** C6, amended: sanitised text holds no backtick, hence no fence, none of
    the characters U+200B, U+200C, U+200D, U+FEFF (the byte-order mark) and
    U+00A0, and no surrogate.  Nothing is promised about comments. *)
Theorem clean_content_no_fence_no_invisible (x : text) :
  ~ In backtick (clean_content x)
  /\ contains fence (clean_content x) = false
  /\ ~ In BOM (clean_content x)
  /\ (forall c, In c (clean_content x) -> is_invisible c = false)
  /\ (forall c, In c (clean_content x) -> is_surrogate c = false).
Proof.
  assert (Hbt : ~ In backtick (clean_content x)).
  { intros H. now apply clean_content_chars in H as [H _]. }
  split; [exact Hbt|]. split.
  { unfold contains. now rewrite (find_fence_none _ Hbt). }
  split.
  { intros H. apply clean_content_chars in H as (_ & H & _). discriminate. }
  split; intros c Hc; now apply clean_content_chars in Hc as (_ & ? & ?).
Qed.

End SanitizerFacts.



(** ** The extractor *)

Module ExtractorFacts.

Import Extractor Reading Examples.

Example parse_block_example :
  parse_block example_block
  = ([ Attribute (T "name") true; Attribute (T "tags") false ],
     [ BlockNode (T "identity") 0 [ Attribute (T "type") true ] [];
       BlockNode (T "network_rules") 1 [ Attribute (T "default_action") true ]
         [ BlockNode (T "private_link_access") 0 [] [] ] ]).
Proof. vm_compute. reflexivity. Qed.

Lemma parse_attributes_filter (items : dict attr_schema) :
  parse_attributes items
  = map (fun item => Attribute (fst item) (default false (attr_required (snd item))))
        (List.filter (fun item => included (snd item)) items).
Proof.
  induction items as [|[n [r c]] items IH]; [reflexivity|].
  destruct r as [[]|], c as [[]|]; simpl; rewrite IH; reflexivity.
Qed.

Lemma parse_block_eq (b : block_schema) :
  parse_block b
  = (parse_attributes (block_attributes_of b), map node_of (block_types_of b)).
Proof.
  destruct b as [attributes block_types]. simpl. f_equal.
  - now destruct attributes.
  - destruct block_types as [items|]; [|reflexivity]. simpl.
    induction items as [|[n [b' mi]] items IH]; [reflexivity|].
    simpl. f_equal. exact IH.
Qed.

Lemma parse_attributes_In (items : dict attr_schema) (attr : attribute) :
  In attr (parse_attributes items) ->
  exists a, In (name attr, a) items /\ included a = true
            /\ required attr = default false (attr_required a).
Proof.
  rewrite parse_attributes_filter. intros H.
  apply in_map_iff in H as ([n a] & <- & H).
  apply filter_In in H as [H Hinc]. simpl in *. eauto.
Qed.

(** What is listed in the output was declared in the document, at the
    same place, as required or not computed. *)
Lemma parse_block_sound (path : list text) :
  forall (b : block_schema) (attr : attribute),
    summary_attribute path (fst (parse_block b)) (snd (parse_block b)) attr ->
    exists a, source_attribute path b (name attr) a
              /\ included a = true
              /\ required attr = default false (attr_required a).
Proof.
  induction path as [|block_name path IH]; intros b attr; rewrite parse_block_eq; simpl.
  - apply parse_attributes_In.
  - intros (node & Hin & Hname & Hsub).
    apply in_map_iff in Hin as ([n [b' mi]] & <- & Hin).
    simpl in Hname, Hsub. subst n.
    destruct (IH _ _ Hsub) as (a & Ha & Hinc & Hreq).
    exists a. split; [|tauto]. exists b', mi. tauto.
Qed.

Lemma NoDup_keys_In {V : Type} (d : dict V) (k : text) (v v' : V) :
  List.NoDup (keys d) -> In (k, v) d -> In (k, v') d -> v = v'.
Proof.
  induction d as [|[k0 v0] d IH]; simpl; [tauto|].
  intros Hnd. apply NoDup_cons_iff in Hnd as [Hk Hnd].
  intros [H|H] [H'|H'].
  - congruence.
  - injection H as -> ->. exfalso. apply Hk. apply in_map_iff. now exists (k, v').
  - injection H' as -> ->. exfalso. apply Hk. apply in_map_iff. now exists (k, v).
  - now apply IH.
Qed.

Lemma source_attribute_functional (path : list text) :
  forall (b : block_schema) (n : text) (a a' : attr_schema),
    distinct_keys_to (length path) b ->
    source_attribute path b n a -> source_attribute path b n a' -> a = a'.
Proof.
  induction path as [|block_name path IH]; intros b n a a'; simpl.
  - intros (Hnd & _ & _). now apply NoDup_keys_In.
  - intros (_ & Hnd & Hsub) (b1 & m1 & Hin1 & H1) (b2 & m2 & Hin2 & H2).
    pose proof (NoDup_keys_In _ _ _ _ Hnd Hin1 Hin2) as [= <- <-].
    exact (IH _ _ _ _ (Hsub _ _ _ Hin1) H1 H2).
Qed.

(** C3: every attribute in the extractor's output, in the flat argument
    list (empty path) or in a block at any depth, is an attribute the
    document declares at that place with [required] true or [computed]
    false, and carries the document's [required] flag. *)
Theorem extracted_attribute_required_or_not_computed
    (path : list text) (b : block_schema) (attr : attribute) :
  summary_attribute path (fst (parse_block b)) (snd (parse_block b)) attr ->
  exists a, source_attribute path b (name attr) a
            /\ (default false (attr_required a)
                || negb (default false (attr_computed a)) = true)
            /\ required attr = default false (attr_required a).
Proof. apply parse_block_sound. Qed.

(** The contrapositive reading of C3: in a document with distinct keys, an
    attribute that is computed and not required is listed nowhere. *)
Corollary computed_only_never_extracted
    (path : list text) (b : block_schema) (n : text) (a : attr_schema) (attr : attribute) :
  distinct_keys_to (length path) b ->
  source_attribute path b n a ->
  default false (attr_required a) = false ->
  default false (attr_computed a) = true ->
  summary_attribute path (fst (parse_block b)) (snd (parse_block b)) attr ->
  name attr <> n.
Proof.
  intros Hd Hsrc Hreq Hcomp Hout E. subst n.
  destruct (parse_block_sound _ _ _ Hout) as (a' & Ha' & Hinc & _).
  rewrite (source_attribute_functional _ _ _ _ _ Hd Hsrc Ha') in Hreq, Hcomp.
  unfold included in Hinc. rewrite Hreq, Hcomp in Hinc. discriminate.
Qed.

Lemma extracted_attribute_witness :
  exists a, source_attribute [T "identity"] example_block (T "type") a
            /\ (default false (attr_required a)
                || negb (default false (attr_computed a)) = true)
            /\ true = default false (attr_required a).
Proof.
  apply (extracted_attribute_required_or_not_computed
           [T "identity"] example_block (Attribute (T "type") true)).
  vm_compute. eexists. split; [left; reflexivity|]. split; [reflexivity|].
  left. reflexivity.
Defined.

(** C7: at every block of the document, the nested blocks of the output
    are the document's [block_types] entries in the document's order, each
    with its declared [min_items], or 0 where the document leaves it out,
    and with the extraction of its own block below it; the attributes of
    the output are the kept attributes in the document's order. *)
Theorem parse_block_keeps_order_and_min_items (b : block_schema) :
  map name (fst (parse_block b))
  = keys (List.filter (fun item => included (snd item)) (block_attributes_of b))
  /\ map Schema.block_name (snd (parse_block b)) = keys (block_types_of b)
  /\ map block_min_items (snd (parse_block b))
     = map (fun item => match snd item with BlockType _ m => default 0%Z m end)
           (block_types_of b)
  /\ snd (parse_block b) = map node_of (block_types_of b).
Proof.
  rewrite parse_block_eq. simpl. rewrite parse_attributes_filter.
  unfold keys. rewrite !map_map. repeat split.
  - apply map_ext. now intros [n [b' m]].
  - apply map_ext. now intros [n [b' m]].
Qed.

Lemma extract_not_found (schema : schema_document)
    (provider_supplier resource_type provider_name provider_version : text) (w : world) :
  dict_get resource_type (resource_catalog schema provider_supplier provider_name) = None
  \/ dict_get resource_type (resource_catalog schema provider_supplier provider_name)
     = Some (ResourceSchema None None) ->
  extract_full_block_tree schema provider_supplier resource_type
    provider_name provider_version w
  = Raised (ValueError (not_found_message resource_type)) w.
Proof.
  unfold extract_full_block_tree. intros [-> | ->]; reflexivity.
Qed.

Lemma main_not_found (schema : schema_document) (urlretrieve : text -> (text * option text) + text)
    (script provider_supplier resource_type provider_name provider_version : text)
    (w : world) :
  extract_full_block_tree schema provider_supplier resource_type
    provider_name provider_version
    (World (dirs w) (files w)
       (stdout w ++ [nl ++ [0x1F50D] ++ T " Extracting schema for resource: "
                        ++ resource_type ++ nl]))
  = Raised (ValueError (not_found_message resource_type))
      (World (dirs w) (files w)
         (stdout w ++ [nl ++ [0x1F50D] ++ T " Extracting schema for resource: "
                          ++ resource_type ++ nl])) ->
  main schema urlretrieve
    [script; provider_supplier; provider_name; provider_version; resource_type] w
  = Exited 1
      (World (dirs w) (files w)
         ((stdout w ++ [nl ++ [0x1F50D] ++ T " Extracting schema for resource: "
                           ++ resource_type ++ nl])
          ++ [not_found_message resource_type])).
Proof.
  intros H. unfold main, mbind, M_bind, print, modify, try_ValueError.
  rewrite H. reflexivity.
Qed.

(** C4: when the resource type is not a key of the catalog, the extractor
    raises its not-found error, whose message holds the resource type; the
    script prints the message and exits with status 1, and the working
    directory is as it was: no directory made, no file written. *)
Theorem missing_resource_type_fails (schema : schema_document)
    (urlretrieve : text -> (text * option text) + text)
    (script provider_supplier resource_type provider_name provider_version : text)
    (w : world) :
  dict_get resource_type (resource_catalog schema provider_supplier provider_name) = None ->
  extract_full_block_tree schema provider_supplier resource_type
    provider_name provider_version w
  = Raised (ValueError (not_found_message resource_type)) w
  /\ (exists pre post, not_found_message resource_type = pre ++ resource_type ++ post)
  /\ exists w',
      main schema urlretrieve
        [script; provider_supplier; provider_name; provider_version; resource_type] w
      = Exited 1 w'
      /\ dirs w' = dirs w
      /\ files w' = files w
      /\ last (stdout w') = Some (not_found_message resource_type).
Proof.
  intros H. split; [apply extract_not_found; now left|]. split.
  { unfold not_found_message. eexists (_ :: _), _. reflexivity. }
  eexists. split.
  - apply main_not_found. apply extract_not_found. now left.
  - simpl. repeat split. apply last_snoc.
Qed.

Lemma missing_resource_type_witness :
  extract_full_block_tree example_schema (T "hashicorp") (T "azurerm_missing")
    (T "azurerm") (T "4.0.0") (World ∅ ∅ [])
  = Raised (ValueError (not_found_message (T "azurerm_missing"))) (World ∅ ∅ [])
  /\ (exists pre post,
        not_found_message (T "azurerm_missing") = pre ++ T "azurerm_missing" ++ post)
  /\ exists w',
      main example_schema (fun _ => inl ([], None))
        [T "2_extract_schema_and_wiki.py"; T "hashicorp"; T "azurerm"; T "4.0.0";
         T "azurerm_missing"] (World ∅ ∅ [])
      = Exited 1 w'
      /\ dirs w' = ∅
      /\ files w' = ∅
      /\ last (stdout w') = Some (not_found_message (T "azurerm_missing")).
Proof.
  apply (missing_resource_type_fails example_schema (fun _ => inl ([], None))
           (T "2_extract_schema_and_wiki.py") (T "hashicorp") (T "azurerm_missing")
           (T "azurerm") (T "4.0.0") (World ∅ ∅ [])).
  reflexivity.
Defined.

(** C10: an entry that is present but empty is reported as a missing one.
    With the resource type absent from one catalog and mapped to the empty
    object in another, the extractor raises the same not-found error on
    both, and the script ends the same way on both. *)
Theorem empty_entry_reported_as_missing (schema1 schema2 : schema_document)
    (urlretrieve : text -> (text * option text) + text)
    (script provider_supplier resource_type provider_name provider_version : text)
    (w : world) :
  dict_get resource_type (resource_catalog schema1 provider_supplier provider_name) = None ->
  dict_get resource_type (resource_catalog schema2 provider_supplier provider_name)
  = Some (ResourceSchema None None) ->
  extract_full_block_tree schema2 provider_supplier resource_type
    provider_name provider_version w
  = Raised (ValueError (not_found_message resource_type)) w
  /\ extract_full_block_tree schema1 provider_supplier resource_type
       provider_name provider_version w
     = extract_full_block_tree schema2 provider_supplier resource_type
         provider_name provider_version w
  /\ main schema1 urlretrieve
       [script; provider_supplier; provider_name; provider_version; resource_type] w
     = main schema2 urlretrieve
         [script; provider_supplier; provider_name; provider_version; resource_type] w.
Proof.
  intros H1 H2. split; [apply extract_not_found; now right|]. split.
  - rewrite !extract_not_found; auto.
  - rewrite !main_not_found; auto using extract_not_found.
Qed.

Lemma empty_entry_witness :
  extract_full_block_tree example_schema (T "hashicorp") (T "azurerm_placeholder")
    (T "azurerm") (T "4.0.0") (World ∅ ∅ [])
  = Raised (ValueError (not_found_message (T "azurerm_placeholder"))) (World ∅ ∅ [])
  /\ extract_full_block_tree (SchemaDocument None) (T "hashicorp") (T "azurerm_placeholder")
       (T "azurerm") (T "4.0.0") (World ∅ ∅ [])
     = extract_full_block_tree example_schema (T "hashicorp") (T "azurerm_placeholder")
         (T "azurerm") (T "4.0.0") (World ∅ ∅ [])
  /\ main (SchemaDocument None) (fun _ => inl ([], None))
       [T "2_extract_schema_and_wiki.py"; T "hashicorp"; T "azurerm"; T "4.0.0";
        T "azurerm_placeholder"] (World ∅ ∅ [])
     = main example_schema (fun _ => inl ([], None))
         [T "2_extract_schema_and_wiki.py"; T "hashicorp"; T "azurerm"; T "4.0.0";
          T "azurerm_placeholder"] (World ∅ ∅ []).
Proof.
  apply (empty_entry_reported_as_missing (SchemaDocument None) example_schema
           (fun _ => inl ([], None)) (T "2_extract_schema_and_wiki.py") (T "hashicorp")
           (T "azurerm_placeholder") (T "azurerm") (T "4.0.0") (World ∅ ∅ []));
    reflexivity.
Defined.

End ExtractorFacts.



(** ** The generator *)

Module CrewFacts.

Import Sanitizer Crew Writing Rendering Names Examples.

Example schema_summary_example :
  schema_summary storage_account example_arguments example_block_tree
  = T "You are generating Terraform code for resource azurerm_storage_account." ++ nl
    ++ T "Arguments:" ++ nl
    ++ T "- name (required)" ++ nl
    ++ T "- tags (optional)" ++ nl
    ++ nl
    ++ T "Nested Block Tree:" ++ nl
    ++ T "- identity (min_items=0)" ++ nl
    ++ T "  - type (required)" ++ nl
    ++ T "- network_rules (min_items=1)" ++ nl
    ++ T "  - default_action (required)" ++ nl
    ++ T "  - private_link_access (min_items=0)".
Proof. vm_compute. reflexivity. Qed.

Example output_folder_example :
  output_folder (T "AzureRM_Storage_Account") = T "modules/azurerm_storage_account".
Proof. vm_compute. reflexivity. Qed.

Lemma path_join_relative (a b : text) :
  starts_with (T "/") b = false -> path_join a b = dir_prefix a ++ b.
Proof.
  intros H. unfold path_join, dir_prefix. rewrite H.
  repeat case_bool_decide; try reflexivity. now rewrite <- app_assoc.
Qed.

Lemma run_ops_app (ops1 ops2 : list op) (w : world) :
  run_ops (ops1 ++ ops2) w = run_ops ops2 (run_ops ops1 w).
Proof. apply fold_left_app. Qed.

Lemma open_write_files (p c : text) (w : world) :
  files (write_world p c (open_w_world p w)) = <[p := TextFile c]> (files w).
Proof.
  unfold write_world, open_w_world. simpl.
  rewrite lookup_insert_eq. simpl. apply insert_insert_eq.
Qed.

Lemma write_file_ops_files (folder : text) (item : text * text) (w : world) :
  files (run_ops (write_file_ops folder item) w) = put_item folder (files w) item.
Proof.
  destruct item as [f c]. unfold write_file_ops, put_item. simpl.
  case_bool_decide; [reflexivity|]. simpl. now rewrite !insert_insert_eq.
Qed.

Lemma write_file_ops_dirs (folder : text) (item : text * text) (w : world) :
  dirs (run_ops (write_file_ops folder item) w) = dirs w.
Proof.
  destruct item as [f c]. unfold write_file_ops. case_bool_decide; reflexivity.
Qed.

Lemma write_items_files (folder : text) (items : list (text * text)) :
  forall w,
    files (run_ops (flat_map (write_file_ops folder) items) w)
    = fold_left (put_item folder) items (files w).
Proof.
  induction items as [|item items IH]; intros w; [reflexivity|].
  simpl. rewrite run_ops_app, IH, write_file_ops_files. reflexivity.
Qed.

Lemma write_items_dirs (folder : text) (items : list (text * text)) :
  forall w, dirs (run_ops (flat_map (write_file_ops folder) items) w) = dirs w.
Proof.
  induction items as [|item items IH]; intros w; [reflexivity|].
  simpl. rewrite run_ops_app, IH. apply write_file_ops_dirs.
Qed.

Lemma put_items_other (folder : text) (items : list (text * text)) (p : text) :
  forall m,
    ~ In p (map (fun item => path_join folder (fst item)) items) ->
    fold_left (put_item folder) items m !! p = m !! p.
Proof.
  induction items as [|[f c] items IH]; intros m H; [reflexivity|].
  simpl in *. rewrite IH by tauto.
  unfold put_item. simpl. case_bool_decide; [reflexivity|].
  apply lookup_insert_ne. intros E. apply H. now left.
Qed.

Lemma put_items_lookup (folder : text) (items : list (text * text)) (f c : text) :
  forall m,
    List.NoDup (map (fun item => path_join folder (fst item)) items) ->
    In (f, c) items ->
    fold_left (put_item folder) items m !! path_join folder f
    = if bool_decide (c = []) then m !! path_join folder f else Some (TextFile c).
Proof.
  induction items as [|[f0 c0] items IH]; intros m Hnd Hin; [destruct Hin|].
  simpl in Hnd. apply NoDup_cons_iff in Hnd as [Hfresh Hnd].
  simpl. destruct Hin as [[= -> ->] | Hin].
  - rewrite put_items_other by exact Hfresh.
    unfold put_item. simpl. case_bool_decide; [reflexivity|].
    apply lookup_insert_eq.
  - rewrite (IH _ Hnd Hin). case_bool_decide; [|reflexivity].
    unfold put_item. simpl. case_bool_decide; [reflexivity|].
    apply lookup_insert_ne. intros E. apply Hfresh.
    apply in_map_iff. exists (f, c). split; [now symmetry | exact Hin].
Qed.

Lemma generated_names (ps pn pv : text) (v m o : option text) :
  map fst (generated ps pn pv v m o)
  = [T "variables.tf"; T "main.tf"; T "outputs.tf"; T "terraform.tf"].
Proof. reflexivity. Qed.

Lemma generated_paths_distinct (folder ps pn pv : text) (v m o : option text) :
  List.NoDup (map (fun item => path_join folder (fst item)) (generated ps pn pv v m o)).
Proof.
  unfold generated. simpl. rewrite !path_join_relative by reflexivity.
  repeat constructor; simpl; intros H;
    repeat (destruct H as [H|H]; [apply app_inv_head in H; discriminate|]);
    exact H.
Qed.

Lemma terraform_tf_not_empty (ps pn pv : text) : terraform_tf ps pn pv <> [].
Proof. discriminate. Qed.

(** The files after the whole writer has run. *)
Lemma write_ops_files (folder : text) (items : list (text * text)) (w : world) :
  files (run_ops (write_ops folder items) w) = fold_left (put_item folder) items (files w).
Proof. unfold write_ops. simpl. now rewrite write_items_files. Qed.

Lemma write_ops_dirs (folder : text) (items : list (text * text)) (w : world) :
  dirs (run_ops (write_ops folder items) w)
  = dirs w ∪ list_to_set (ancestors folder) ∪ {[folder]}.
Proof. unfold write_ops. simpl. now rewrite write_items_dirs. Qed.

(** The run that nothing interrupts is one of the runs. *)
Lemma may_step_step (o : op) (w : world) : may_step o w (step o w).
Proof.
  destruct o as [p|p|p c|l|p c]; try reflexivity.
  exists (length c). simpl. now rewrite take_ge.
Qed.

Lemma stops_after_run (ops1 : list op) :
  forall ops2 w w', stops ops2 (run_ops ops1 w) w' -> stops (ops1 ++ ops2) w w'.
Proof.
  induction ops1 as [|o ops1 IH]; intros ops2 w w' H; [exact H|].
  simpl. eapply stop_later; [apply may_step_step|]. apply IH. exact H.
Qed.

Lemma stops_cons_inv (o : op) (ops : list op) (w w' : world) :
  stops (o :: ops) w w' ->
  w' = w \/ exists w1, may_step o w w1 /\ stops ops w1 w'.
Proof.
  intros H. inversion H as [|o1 ops1 w0 w1 w0' Hs1 H1]; subst; [now left|].
  right. eauto.
Qed.

(** The four operations of one turn of the loop. *)
Lemma write_file_ops_not_empty (folder f c : text) :
  c <> [] ->
  write_file_ops folder (f, c)
  = [ OpenForWriting (path_join folder f); FileWrite (path_join folder f) c;
      ConsolePrint (written_line folder (f, c)); FileClose (path_join folder f) c ].
Proof.
  intros H. unfold write_file_ops. now rewrite bool_decide_eq_false_2.
Qed.

Lemma write_file_ops_empty (folder f : text) : write_file_ops folder (f, []) = [].
Proof. reflexivity. Qed.

Lemma write_block_in_ops (folder : text) (items : list (text * text)) (f c : text) :
  In (f, c) items ->
  exists before after,
    flat_map (write_file_ops folder) items
    = before ++ write_file_ops folder (f, c) ++ after.
Proof.
  induction items as [|item items IH]; intros Hin; [destruct Hin|].
  destruct Hin as [-> | Hin].
  - exists [], (flat_map (write_file_ops folder) items). reflexivity.
  - destruct (IH Hin) as (before & after & E).
    exists (write_file_ops folder item ++ before), after.
    cbn [flat_map]. now rewrite E, <- app_assoc.
Qed.

(** Where a run can stop inside one turn of the loop, and what the file
    then holds. *)
Lemma stops_block (p c l : text) (rest : list op) (w w' : world) :
  stops (OpenForWriting p :: FileWrite p c :: ConsolePrint l :: FileClose p c :: rest) w w' ->
  w' = w
  \/ (exists k, files w' = <[p := TextFile (take k c)]> (files w))
  \/ exists w4, files w4 = <[p := TextFile c]> (files w) /\ stops rest w4 w'.
Proof.
  intros H.
  inversion H as [|o1 ops1 w0 w1 w0' Hs1 H1]; subst; [now left|]. right.
  cbn [may_step step] in Hs1. subst w1.
  inversion H1 as [|o2 ops2 w0 w2 w0' Hs2 H2]; subst.
  { left. now exists 0%nat. }
  destruct Hs2 as [k ->].
  pose proof (open_write_files p (take k c) w) as E2.
  inversion H2 as [|o3 ops3 w0 w3 w0' Hs3 H3]; subst.
  { left. now exists k. }
  cbn [may_step step] in Hs3. subst w3.
  inversion H3 as [|o4 ops4 w0 w4 w0' Hs4 H4]; subst.
  { left. now exists k. }
  cbn [may_step step] in Hs4. subst w4.
  right. eexists. split; [|exact H4].
  unfold close_world. cbn [files]. rewrite E2. apply insert_insert_eq.
Qed.

(** The files when a run of the loop stops: a path holds what it held at
    the start, or it is the final path of an item and holds a part of the
    item's content, from nothing to all of it. *)
Lemma stops_items (folder : text) (items : list (text * text)) :
  forall w w',
    stops (flat_map (write_file_ops folder) items) w w' ->
    forall p,
      files w' !! p = files w !! p
      \/ exists f c k,
          In (f, c) items /\ c <> [] /\ p = path_join folder f
          /\ files w' !! p = Some (TextFile (take k c)).
Proof.
  induction items as [|[f c] items IH]; intros w w' H p.
  { inversion H; subst. now left. }
  cbn [flat_map] in H.
  assert (Hrest : forall w1,
    stops (flat_map (write_file_ops folder) items) w1 w' ->
    files w1 !! p = files w !! p
    \/ (c <> [] /\ p = path_join folder f /\ files w1 !! p = Some (TextFile c)) ->
    files w' !! p = files w !! p
    \/ exists f' c' k,
        In (f', c') ((f, c) :: items) /\ c' <> [] /\ p = path_join folder f'
        /\ files w' !! p = Some (TextFile (take k c'))).
  { intros w1 H1 Hw1. destruct (IH _ _ H1 p) as [E | (f' & c' & k & Hin & Hc & Hp & E)].
    - rewrite E. destruct Hw1 as [-> | (Hc & Hp & ->)]; [now left|].
      right. exists f, c, (length c). rewrite take_ge by lia.
      repeat split; auto. now left.
    - right. exists f', c', k. repeat split; auto. now right. }
  destruct (decide (c = [])) as [-> | Hc].
  { rewrite write_file_ops_empty in H. apply (Hrest w H). now left. }
  rewrite (write_file_ops_not_empty _ _ _ Hc) in H. cbn [app] in H.
  apply stops_block in H as [-> | [[k E] | (w4 & E4 & H4)]].
  - now left.
  - rewrite E. destruct (decide (p = path_join folder f)) as [-> | Hp].
    + right. exists f, c, k. rewrite lookup_insert_eq. repeat split; auto. now left.
    + left. now apply lookup_insert_ne.
  - apply (Hrest w4 H4). rewrite E4.
    destruct (decide (p = path_join folder f)) as [-> | Hp].
    + right. rewrite lookup_insert_eq. auto.
    + left. now apply lookup_insert_ne.
Qed.

(** A write can be seen at any point: the file under its final name with
    any part of the content. *)
Lemma partial_write_reachable (folder : text) (items : list (text * text))
    (f c : text) (k : nat) (w : world) :
  In (f, c) items -> c <> [] ->
  exists w',
    stops (write_ops folder items) w w'
    /\ files w' !! path_join folder f = Some (TextFile (take k c)).
Proof.
  intros Hin Hc. destruct (write_block_in_ops folder items f c Hin) as (before & after & E).
  unfold write_ops. rewrite E, (write_file_ops_not_empty _ _ _ Hc).
  exists (write_world (path_join folder f) (take k c)
            (open_w_world (path_join folder f) (run_ops (Makedirs folder :: before) w))).
  split.
  - apply (stops_after_run (Makedirs folder :: before)).
    eapply stop_later; [reflexivity|].
    eapply stop_later; [exists k; reflexivity|]. apply stop_here.
  - rewrite open_write_files. apply lookup_insert_eq.
Qed.

Lemma capital_small (c : N) : capital c = true -> capital (c + 32) = false.
Proof.
  unfold capital. intros H. apply andb_prop in H as [H1 H2].
  apply N.leb_le in H1, H2. apply andb_false_iff. right. apply N.leb_gt. lia.
Qed.

Lemma lower_is_lower_cased (s : text) : lower_cased s (lower s).
Proof.
  unfold lower_cased, lower. induction s as [|c s IH]; simpl; constructor; [|exact IH].
  unfold capital. now destruct ((65 <=? c) && (c <=? 90)).
Qed.

Lemma plain_name_no_slash (s : text) : plain_name s = true -> ~ In 47 s.
Proof.
  unfold plain_name. intros H Hin.
  apply andb_prop in H as [H _]. apply andb_prop in H as [H _].
  apply andb_prop in H as [H _].
  rewrite forallb_forall in H. specialize (H _ Hin). discriminate.
Qed.

Lemma lower_no_slash (s : text) : ~ In 47 s -> ~ In 47 (lower s).
Proof.
  unfold lower. intros H Hin. apply in_map_iff in Hin as (c & Hc & Hin).
  destruct ((65 <=? c) && (c <=? 90)) eqn:E.
  - apply andb_prop in E as [E1 E2]. apply N.leb_le in E1, E2. lia.
  - subst c. now apply H.
Qed.

(** The module folder of a resource type without a slash. *)
Lemma output_folder_no_slash (rt : text) :
  ~ In 47 rt -> output_folder rt = T "modules/" ++ lower rt.
Proof.
  intros H. apply lower_no_slash in H.
  unfold output_folder, path_join.
  destruct (lower rt) as [|c r] eqn:El; [reflexivity|].
  assert (Hc : (47 =? c) = false).
  { apply N.eqb_neq. intros <-. apply H. now left. }
  change (starts_with (T "/") (c :: r)) with ((47 =? c) && true).
  rewrite Hc. reflexivity.
Qed.




(** C2, as stated, fails: for the storage account example the rendered
    context is part of the inputs and body payloads and is not part of the
    outputs payload. *)
Lemma outputs_task_lacks_schema_context :
  contains (schema_summary storage_account example_arguments example_block_tree)
    (description
       (tasks storage_account example_arguments example_block_tree (T "doc")).1.1) = true
  /\ contains (schema_summary storage_account example_arguments example_block_tree)
       (description
          (tasks storage_account example_arguments example_block_tree (T "doc")).1.2) = true
  /\ contains (schema_summary storage_account example_arguments example_block_tree)
       (description
          (tasks storage_account example_arguments example_block_tree (T "doc")).2) = false.
Proof. by_computation. Qed.

(** C2, amended: the context is rendered once and the same text opens the
    inputs payload and the body payload, each time followed by an empty
    line; the outputs payload is built from the resource type alone, so it
    is the same whatever the schema and the documentation. *)
Theorem schema_context_shared_by_inputs_and_body (rt : text)
    (args : list attribute) (blocks : list block_node) (md : text) :
  (exists rest,
     description (tasks rt args blocks md).1.1
     = schema_summary rt args blocks ++ nl ++ nl ++ rest)
  /\ (exists rest,
        description (tasks rt args blocks md).1.2
        = schema_summary rt args blocks ++ nl ++ nl ++ rest)
  /\ (forall args' blocks' md',
        (tasks rt args' blocks' md').2 = (tasks rt args blocks md).2).
Proof.
  split; [|split].
  - eexists. unfold tasks, variables_task, variables_description.
    cbn [fst snd description]. reflexivity.
  - eexists. unfold tasks, main_task, main_description.
    cbn [fst snd description]. reflexivity.
  - reflexivity.
Qed.




(** The lower-casing of the witness, spelled out. *)
Example lower_cased_example :
  lower_cased (T "AzureRM_Storage_Account") (T "azurerm_storage_account")
  /\ ~ lower_cased (T "AzureRM_Storage_Account") (T "AzureRM_Storage_Account").
Proof.
  split.
  - repeat constructor.
  - intros H. inversion H as [|c d s r Hcd _]. discriminate Hcd.
Qed.

(** C9, as stated, fails: the writer opens each file under its final
    name and writes to it there.  A run can stop with [variables.tf] in
    place and empty, or holding the first eight characters of its
    content. *)
Lemma interrupted_run_leaves_partial_module :
  take 5 example_ops
  = [ Makedirs (T "modules/azurerm_storage_account");
      OpenForWriting (T "modules/azurerm_storage_account/variables.tf");
      FileWrite (T "modules/azurerm_storage_account/variables.tf") variables_name;
      ConsolePrint ([0x2705] ++ T " Written: modules/azurerm_storage_account/variables.tf");
      FileClose (T "modules/azurerm_storage_account/variables.tf") variables_name ]
  /\ (exists w',
        stops example_ops empty_world w'
        /\ files w' !! T "modules/azurerm_storage_account/variables.tf"
           = Some (TextFile [])
        /\ files w' !! T "modules/azurerm_storage_account/main.tf" = None)
  /\ (exists w',
        stops example_ops empty_world w'
        /\ files w' !! T "modules/azurerm_storage_account/variables.tf"
           = Some (TextFile (T "variable"))
        /\ T "variable" <> variables_name).
Proof.
  split; [vm_compute; reflexivity|]. split.
  - exists (run_ops (take 2 example_ops) empty_world). split.
    + apply (stops_after_run (take 2 example_ops) (drop 2 example_ops)). apply stop_here.
    + split; vm_compute; reflexivity.
  - destruct (partial_write_reachable (output_folder storage_account)
                (generated (T "hashicorp") (T "azurerm") (T "4.0.0")
                   (Some variables_name) (Some body_st) (Some outputs_st))
                (T "variables.tf") variables_name 8 empty_world)
      as (w' & Hs & Hl); [simpl; tauto | discriminate |].
    exists w'. split; [exact Hs|]. split; [exact Hl | discriminate].
Qed.

(** C9, amended: each artifact file whose content is not empty is written
    in place.  The writer opens the file, created or emptied, under its
    final name, writes the content to it, prints the line and closes the
    file, in this order, and it opens, writes and closes no file under
    another name: there is no temporary name and no renaming.  When a run
    stops at some point, a path of the working directory holds what it
    held before the run, or it is the final path of such a file and holds
    a part of the content, from nothing to all of it; and every such part
    can indeed be seen under the final name.  These operations are what a
    run of the script performs once the backend has returned, and the run
    to the end is one of the points at which it stops. *)
Theorem files_written_in_place (ps pn pv rt : text) (v m o : option text) (w : world) :
  (forall filename content,
      In (filename, content) (generated ps pn pv v m o) -> content <> [] ->
      exists before after,
        write_ops (output_folder rt) (generated ps pn pv v m o)
        = before
          ++ [ OpenForWriting (path_join (output_folder rt) filename);
               FileWrite (path_join (output_folder rt) filename) content;
               ConsolePrint (written_line (output_folder rt) (filename, content));
               FileClose (path_join (output_folder rt) filename) content ]
          ++ after)
  /\ (forall o',
        In o' (write_ops (output_folder rt) (generated ps pn pv v m o)) ->
        match o' with
        | OpenForWriting p | FileWrite p _ | FileClose p _ =>
            exists filename content,
              In (filename, content) (generated ps pn pv v m o)
              /\ p = path_join (output_folder rt) filename
        | Makedirs p => p = output_folder rt
        | ConsolePrint _ => True
        end)
  /\ (forall w',
        stops (write_ops (output_folder rt) (generated ps pn pv v m o)) w w' ->
        forall p,
          files w' !! p = files w !! p
          \/ exists filename content k,
              In (filename, content) (generated ps pn pv v m o) /\ content <> []
              /\ p = path_join (output_folder rt) filename
              /\ files w' !! p = Some (TextFile (take k content)))
  /\ (forall filename content k,
        In (filename, content) (generated ps pn pv v m o) -> content <> [] ->
        exists w',
          stops (write_ops (output_folder rt) (generated ps pn pv v m o)) w w'
          /\ files w' !! path_join (output_folder rt) filename
             = Some (TextFile (take k content)))
  /\ (forall (crew : backend) (args : list attribute) (blocks : list block_node)
             (md : text),
        crew (variables_task (schema_summary rt args blocks) md)
             (main_task (schema_summary rt args blocks) rt)
             (outputs_task rt) = inr (v, m, o) ->
        main crew ps pn pv rt args blocks md w
        = Returned tt (run_ops (write_ops (output_folder rt) (generated ps pn pv v m o)) w)
        /\ stops (write_ops (output_folder rt) (generated ps pn pv v m o)) w
             (run_ops (write_ops (output_folder rt) (generated ps pn pv v m o)) w)).
Proof.
  split; [|split; [|split; [|split]]].
  - intros filename content Hin Hc.
    destruct (write_block_in_ops (output_folder rt) _ _ _ Hin) as (before & after & E).
    exists (Makedirs (output_folder rt) :: before), after.
    unfold write_ops. rewrite E, (write_file_ops_not_empty _ _ _ Hc). reflexivity.
  - intros o' [<- | Hin]; [reflexivity|].
    apply in_flat_map in Hin as ([f c] & Hitem & Hin).
    destruct (decide (c = [])) as [-> | Hc]; [destruct Hin|].
    rewrite (write_file_ops_not_empty _ _ _ Hc) in Hin.
    destruct Hin as [<- | [<- | [<- | [<- | []]]]]; eauto.
  - intros w' H p. unfold write_ops in H.
    apply stops_cons_inv in H as [-> | (w1 & Hs1 & H1)]; [now left|].
    cbn [may_step step] in Hs1. subst w1.
    exact (stops_items _ _ _ _ H1 p).
  - intros filename content k Hin Hc. now apply partial_write_reachable.
  - intros crew args blocks md H. split.
    + unfold main, tasks. rewrite H. reflexivity.
    + rewrite <- (app_nil_r (write_ops _ _)) at 1.
      apply stops_after_run, stop_here.
Qed.

End CrewFacts.

(** ** More on substitution and the sanitiser *)

Module SanitizerMore.

Import Sanitizer SanitizerFacts.

(** Passing over [k] characters and then scanning is scanning what is left
    after them. *)
Lemma re_sub_from_skip (m : matcher) (k : nat) :
  forall s, re_sub_from m k s = re_sub m (drop k s).
Proof.
  unfold re_sub. induction k as [|k IH]; intros s; [reflexivity|].
  destruct s as [|c s]; [reflexivity|]. simpl. apply IH.
Qed.

Lemma re_sub_from_all (m : matcher) (k : nat) (s : text) :
  (length s <= k)%nat -> re_sub_from m k s = [].
Proof.
  intros H. rewrite re_sub_from_skip, drop_ge by exact H. reflexivity.
Qed.

(** A match at the head: its replacement, then the scan of what follows
    the match. *)
Lemma re_sub_match_head (m : matcher) (s repl : text) (len : nat) :
  m s = Some (repl, len) -> s <> [] -> (0 < len)%nat ->
  re_sub m s = repl ++ re_sub m (drop len s).
Proof.
  intros H Hs Hlen. destruct s as [|c s]; [congruence|].
  unfold re_sub at 1. simpl. rewrite H.
  rewrite re_sub_from_skip. destruct len; [lia|]. reflexivity.
Qed.

(** A match that spans the whole subject leaves its replacement. *)
Lemma re_sub_whole_match (m : matcher) (s repl : text) (len : nat) :
  m s = Some (repl, len) -> s <> [] -> (length s <= len)%nat -> re_sub m s = repl.
Proof.
  intros H Hs Hlen. destruct s as [|c s]; [congruence|].
  unfold re_sub. simpl. rewrite H.
  rewrite re_sub_from_all; [apply app_nil_r|]. simpl in Hlen. lia.
Qed.

(** A substitution whose replacement is always cut out of the span it
    replaces only deletes. *)
Lemma re_sub_from_sublist (m : matcher) :
  (forall s repl len, m s = Some (repl, len) -> repl `sublist_of` take len s) ->
  forall s skip, re_sub_from m skip s `sublist_of` drop skip s.
Proof.
  intros Hm. induction s as [|c s IH]; intros skip.
  - destruct skip; simpl; constructor.
  - destruct skip as [|k]; simpl; [|apply IH].
    destruct (m (c :: s)) as [[repl len]|] eqn:E.
    + specialize (Hm _ _ _ E). specialize (IH (Nat.pred len)).
      destruct len as [|l]; simpl in *.
      * apply sublist_nil_r in Hm. subst repl. now apply sublist_cons.
      * replace (c :: s) with ((c :: take l s) ++ drop l s)
          by (simpl; now rewrite take_drop).
        now apply sublist_app.
    + apply sublist_skip, (IH O).
Qed.

Lemma fence_match_span (s repl : text) (len : nat) :
  fence_match s = Some (repl, len) -> repl `sublist_of` take len s.
Proof.
  assert (Hseg : forall o k, take k (drop o s) `sublist_of` take (o + k + 3) s).
  { intros o k. rewrite <- Nat.add_assoc, <- (take_take_drop s o (k + 3)).
    apply sublist_inserts_l.
    rewrite <- (take_take_drop (drop o s) k 3). now apply sublist_inserts_r. }
  unfold fence_match. destruct (starts_with fence s); [|discriminate].
  destruct (find nl (drop 3 s)) as [j|].
  - destruct (find fence (drop (S j) (drop 3 s))) as [k|].
    + intros [= <- <-]. rewrite drop_drop. apply Hseg.
    + destruct (find fence (drop 3 s)) as [k|]; [|discriminate].
      intros [= <- <-]. apply Hseg.
  - destruct (find fence (drop 3 s)) as [k|]; [|discriminate].
    intros [= <- <-]. apply Hseg.
Qed.

Lemma comment_match_span (s repl : text) (len : nat) :
  comment_match s = Some (repl, len) -> repl `sublist_of` take len s.
Proof. intros H. rewrite (comment_match_deletes _ _ _ H). apply sublist_nil_l. Qed.

Lemma filter_sublist (f : N -> bool) (s : text) : List.filter f s `sublist_of` s.
Proof.
  induction s as [|c s IH]; simpl; [constructor|].
  destruct (f c); [now apply sublist_skip | now apply sublist_cons].
Qed.

(** White space is cut off at the two ends, and nowhere else. *)
Lemma lstrip_suffix (s : text) : exists k, s = k ++ lstrip s.
Proof.
  induction s as [|c s [k IH]]; simpl; [now exists []|].
  destruct (is_space c); [|now exists []].
  exists (c :: k). simpl. now rewrite <- IH.
Qed.

Lemma rstrip_prefix (s : text) : exists k, s = rstrip s ++ k.
Proof.
  unfold rstrip. destruct (lstrip_suffix (rev s)) as [k Hk].
  exists (rev k). rewrite <- rev_app_distr, <- Hk. now rewrite rev_involutive.
Qed.

Lemma strip_middle (s : text) : exists k1 k2, s = k1 ++ strip s ++ k2.
Proof.
  unfold strip. destruct (lstrip_suffix s) as [k1 H1].
  destruct (rstrip_prefix (lstrip s)) as [k2 H2].
  exists k1, k2. now rewrite <- H2.
Qed.

Lemma strip_sublist (s : text) : strip s `sublist_of` s.
Proof.
  destruct (strip_middle s) as (k1 & k2 & H). rewrite H at 2.
  apply sublist_inserts_l, sublist_inserts_r. reflexivity.
Qed.

(** X1: The sanitiser only deletes: what it returns is the input with some
    characters left out, the others in their order. *)
Theorem clean_content_sublist (x : text) : clean_content x `sublist_of` x.
Proof.
  rewrite clean_content_passes.
  etrans; [apply strip_sublist|]. etrans; [apply filter_sublist|].
  etrans; [apply strip_sublist|]. etrans; [apply filter_sublist|].
  etrans; [apply strip_sublist|].
  etrans; [apply (re_sub_from_sublist comment_match comment_match_span _ O)|].
  etrans; [apply filter_sublist|].
  apply (re_sub_from_sublist fence_match fence_match_span _ O).
Qed.

Lemma last_rev_head (s : text) : last (rev s) = head s.
Proof. destruct s as [|c s]; [reflexivity|]. simpl. apply last_snoc. Qed.

Lemma lstrip_starts (s : text) (c : N) : head (lstrip s) = Some c -> is_space c = false.
Proof.
  destruct (lstrip_head s) as [-> | (c' & r & -> & Hc)]; simpl; [discriminate|].
  now intros [= <-].
Qed.

(** X2: Sanitised text does not begin and does not end with white space. *)
Theorem clean_content_trimmed (x : text) (c : N) :
  (head (clean_content x) = Some c -> is_space c = false)
  /\ (last (clean_content x) = Some c -> is_space c = false).
Proof.
  split.
  - rewrite <- clean_content_stripped. unfold strip.
    destruct (lstrip_head (clean_content x)) as [-> | (c' & r & -> & Hc)];
      [discriminate|].
    rewrite (rstrip_cons_keep _ _ Hc). now intros [= <-].
  - rewrite <- clean_content_stripped. unfold strip, rstrip.
    rewrite last_rev_head. apply lstrip_starts.
Qed.

(** X3: Text that holds none of what the sanitiser looks for comes back
    trimmed, and otherwise as it is. *)
Theorem clean_content_leaves_clean_text (x : text) :
  ~ In backtick x ->
  matches_somewhere comment_match x = false ->
  (forall c, In c x -> is_invisible c = false) ->
  (forall c, In c x -> is_surrogate c = false) ->
  clean_content x = strip x.
Proof.
  intros Hbt Hcm Hinv Hsur. rewrite clean_content_passes.
  rewrite (re_sub_no_match fence_match x) by now apply fence_no_match.
  rewrite (filter_all _ x).
  2:{ intros c Hc. apply negb_true_iff, N.eqb_neq. now intros ->. }
  rewrite (re_sub_no_match _ _ Hcm).
  rewrite (filter_all _ (strip x)).
  2:{ intros c Hc. apply strip_In in Hc. now rewrite (Hinv c Hc). }
  rewrite strip_idem. unfold encode_utf8_ignore.
  rewrite (filter_all _ (strip x)); [apply strip_idem|].
  intros c Hc. apply strip_In in Hc. now rewrite (Hsur c Hc).
Qed.

Lemma clean_content_leaves_clean_text_witness :
  clean_content (T "  name = var.name" ++ nl) = strip (T "  name = var.name" ++ nl).
Proof.
  apply (clean_content_leaves_clean_text (T "  name = var.name" ++ nl)).
  - vm_compute. intuition discriminate.
  - reflexivity.
  - intros c Hc. vm_compute in Hc. intuition subst; reflexivity.
  - intros c Hc. vm_compute in Hc. intuition subst; reflexivity.
Defined.

Lemma find_char_fresh (c : N) (a r : text) :
  ~ In c a -> find [c] (a ++ c :: r) = Some (length a).
Proof.
  induction a as [|x a IH]; intros H.
  - simpl. now rewrite N.eqb_refl.
  - change (find [c] ((x :: a) ++ c :: r))
      with (if starts_with [c] (x :: a ++ c :: r) then Some O
            else S <$> find [c] (a ++ c :: r)).
    assert (E : starts_with [c] (x :: a ++ c :: r) = false).
    { simpl. rewrite andb_true_r. apply N.eqb_neq. intros ->. apply H. now left. }
    rewrite E, IH; [reflexivity|]. intros Ha. apply H. now right.
Qed.

Lemma find_fence_fresh (a r : text) :
  ~ In backtick a -> find fence (a ++ fence ++ r) = Some (length a).
Proof.
  induction a as [|x a IH]; intros H.
  - reflexivity.
  - change (find fence ((x :: a) ++ fence ++ r))
      with (if starts_with fence (x :: a ++ fence ++ r) then Some O
            else S <$> find fence (a ++ fence ++ r)).
    assert (E : starts_with fence (x :: a ++ fence ++ r) = false).
    { destruct (starts_with fence (x :: a ++ fence ++ r)) eqn:Es; [|reflexivity].
      apply starts_with_head in Es as (s' & [= -> _] & _).
      exfalso. apply H. now left. }
    rewrite E, IH; [reflexivity|]. intros Ha. apply H. now right.
Qed.

(** The fence pass on one fenced block: the opening fence, whatever stands
    on its line, the line feed and the closing fence go; the body stays. *)
Lemma fence_pass_fenced_block (tag body : text) :
  ~ In 10 tag -> ~ In backtick body ->
  re_sub fence_match (fence ++ tag ++ nl ++ body ++ fence) = body.
Proof.
  intros Htag Hbody.
  assert (E : fence_match (fence ++ tag ++ nl ++ body ++ fence)
              = Some (body, (3 + S (length tag) + length body + 3)%nat)).
  { unfold fence_match.
    change (starts_with fence (fence ++ tag ++ nl ++ body ++ fence)) with true.
    change (drop 3 (fence ++ tag ++ nl ++ body ++ fence))
      with (tag ++ 10 :: body ++ fence).
    cbv iota. unfold nl at 1. rewrite (find_char_fresh 10 tag _ Htag).
    replace (drop (S (length tag)) (tag ++ 10 :: body ++ fence)) with (body ++ fence).
    2:{ rewrite (cons_middle 10 tag), app_assoc.
        rewrite drop_app_length'; [reflexivity|].
        rewrite length_app. simpl. lia. }
    rewrite <- (app_nil_r (body ++ fence)), <- app_assoc.
    rewrite (find_fence_fresh body [] Hbody).
    rewrite app_nil_r, take_app_length. reflexivity. }
  apply (re_sub_whole_match _ _ _ _ E); [discriminate|].
  rewrite !length_app. simpl. lia.
Qed.

(** X4: A fenced block sanitises to what its body sanitises to: the fences
    and the first line, language tag or not, are dropped. *)
Theorem clean_content_fenced_block (tag body : text) :
  ~ In 10 tag -> ~ In backtick body ->
  clean_content (fence ++ tag ++ nl ++ body ++ fence) = clean_content body.
Proof.
  intros Htag Hbody. rewrite !clean_content_passes.
  rewrite (fence_pass_fenced_block _ _ Htag Hbody).
  rewrite (re_sub_no_match fence_match body) by now apply fence_no_match.
  reflexivity.
Qed.

Lemma clean_content_fenced_block_witness :
  clean_content (fence ++ T "hcl" ++ nl ++ T "name = var.name" ++ fence)
  = clean_content (T "name = var.name").
Proof.
  apply (clean_content_fenced_block (T "hcl") (T "name = var.name"));
    vm_compute; intuition discriminate.
Defined.

Lemma lstrip_all_space (s : text) : Forall (fun c => is_space c = true) s -> lstrip s = [].
Proof.
  induction 1 as [|c s Hc _ IH]; simpl; [reflexivity|]. now rewrite Hc.
Qed.

Lemma clean_content_blank (s : text) :
  Forall (fun c => is_space c = true) s -> clean_content s = [].
Proof.
  intros Hs. rewrite clean_content_passes.
  assert (Hin : forall c, In c s -> is_space c = true).
  { intros c Hc. rewrite Forall_forall in Hs. apply Hs. now apply list_elem_of_In. }
  rewrite (re_sub_no_match fence_match s).
  2:{ apply fence_no_match. intros H. apply Hin in H. discriminate. }
  rewrite (filter_all _ s).
  2:{ intros c Hc. apply negb_true_iff, N.eqb_neq. intros ->.
      apply Hin in Hc. discriminate. }
  rewrite (re_sub_no_match comment_match s).
  2:{ clear Hs. induction s as [|c s IH]; [reflexivity|]. simpl.
      assert (E : comment_match (c :: s) = None).
      { unfold comment_match.
        destruct (starts_with comment_open (c :: s)) eqn:Es; [|reflexivity].
        apply starts_with_head in Es as (s' & [= -> _] & _).
        specialize (Hin 47 (or_introl eq_refl)). discriminate. }
      rewrite E. apply IH. intros c' Hc'. apply Hin. now right. }
  unfold strip at 3. rewrite (lstrip_all_space s Hs). reflexivity.
Qed.

(** X5: Text made of white space only sanitises to the empty text. *)
Theorem clean_content_white_space (s : text) :
  Forall (fun c => is_space c = true) s -> clean_content s = [].
Proof. apply clean_content_blank. Qed.

Lemma clean_content_white_space_witness :
  clean_content (nl ++ T "  " ++ [0xA0; 0x2003; 9]) = [].
Proof.
  apply (clean_content_white_space (nl ++ T "  " ++ [0xA0; 0x2003; 9])).
  repeat constructor.
Defined.

(** The scan copies a prefix in which the pattern cannot start. *)
Lemma re_sub_pass_prefix (m : matcher) (pre s : text) :
  (forall c r, In c pre -> m (c :: r) = None) ->
  re_sub m (pre ++ s) = pre ++ re_sub m s.
Proof.
  unfold re_sub. induction pre as [|c pre IH]; intros H; [reflexivity|].
  simpl. rewrite (H c (pre ++ s) (or_introl eq_refl)). f_equal.
  apply IH. intros c' r Hc'. apply H. now right.
Qed.

Lemma comment_match_needs_slash (c : N) (r : text) :
  c <> 47 -> comment_match (c :: r) = None.
Proof.
  intros Hc. unfold comment_match.
  destruct (starts_with comment_open (c :: r)) eqn:E; [|reflexivity].
  apply starts_with_head in E as (s' & [= ->] & _). congruence.
Qed.

Lemma find_close_fresh (body post : text) :
  ~ In 47 body -> find comment_close (body ++ comment_close ++ post) = Some (length body).
Proof.
  induction body as [|x body IH]; intros H; [reflexivity|].
  change (find comment_close ((x :: body) ++ comment_close ++ post))
    with (if starts_with comment_close (x :: body ++ comment_close ++ post) then Some O
          else S <$> find comment_close (body ++ comment_close ++ post)).
  assert (E : starts_with comment_close (x :: body ++ comment_close ++ post) = false).
  { unfold comment_close. cbn [starts_with].
    destruct (42 =? x); [|reflexivity]. cbn [andb].
    destruct body as [|y body]; [reflexivity|]. cbn [app starts_with].
    rewrite andb_true_r. apply N.eqb_neq. intros <-. apply H. right. now left. }
  rewrite E, IH; [reflexivity|]. intros Hin. apply H. now right.
Qed.

Lemma comment_pass_one_comment (pre body post : text) :
  ~ In 47 pre -> ~ In 47 body ->
  re_sub comment_match (pre ++ comment_open ++ body ++ comment_close ++ post)
  = pre ++ re_sub comment_match post.
Proof.
  intros Hpre Hbody. rewrite re_sub_pass_prefix.
  2:{ intros c r Hc. apply comment_match_needs_slash. intros ->. contradiction. }
  f_equal.
  rewrite (re_sub_match_head _ _ [] (3 + length body + 2)%nat).
  - cbn [app]. f_equal.
    rewrite (app_assoc body), (app_assoc comment_open).
    apply drop_app_length'. rewrite !length_app. simpl. lia.
  - unfold comment_match.
    change (starts_with comment_open (comment_open ++ body ++ comment_close ++ post))
      with true.
    change (drop 3 (comment_open ++ body ++ comment_close ++ post))
      with (body ++ comment_close ++ post).
    cbv iota. now rewrite (find_close_fresh _ _ Hbody).
  - discriminate.
  - lia.
Qed.

(** X6: A block comment [/** ... */] is taken out: the text sanitises to what
    the text without the comment sanitises to. *)
Theorem clean_content_doc_comment_removed (pre body post : text) :
  ~ In 47 pre -> ~ In 47 body -> ~ In backtick (pre ++ body ++ post) ->
  clean_content (pre ++ comment_open ++ body ++ comment_close ++ post)
  = clean_content (pre ++ post).
Proof.
  intros Hpre Hbody Hbt. rewrite !clean_content_passes.
  assert (Hbt1 : ~ In backtick (pre ++ comment_open ++ body ++ comment_close ++ post)).
  { intros H. apply Hbt. rewrite !in_app_iff in *. simpl in H.
    unfold backtick in *. intuition discriminate. }
  assert (Hbt2 : ~ In backtick (pre ++ post)).
  { intros H. apply Hbt. rewrite !in_app_iff in *. tauto. }
  rewrite !(re_sub_no_match fence_match) by now apply fence_no_match.
  rewrite (filter_all _ (pre ++ comment_open ++ body ++ comment_close ++ post)).
  2:{ intros c Hc. apply negb_true_iff, N.eqb_neq. now intros ->. }
  rewrite (filter_all _ (pre ++ post)).
  2:{ intros c Hc. apply negb_true_iff, N.eqb_neq. now intros ->. }
  rewrite (comment_pass_one_comment _ _ _ Hpre Hbody).
  rewrite re_sub_pass_prefix; [reflexivity|].
  intros c r Hc. apply comment_match_needs_slash. intros ->. contradiction.
Qed.

Lemma clean_content_doc_comment_witness :
  clean_content (T "name = 1 " ++ comment_open ++ T " generated " ++ comment_close
                   ++ T " tags = {}")
  = clean_content (T "name = 1 " ++ T " tags = {}").
Proof.
  apply (clean_content_doc_comment_removed (T "name = 1 ") (T " generated ") (T " tags = {}"));
    vm_compute; intuition discriminate.
Defined.

End SanitizerMore.

(** ** More on the extractor *)

Module ExtractorMore.

Import Extractor Reading Blocks Names Examples ExtractorFacts.

(** X7: Completeness of the extraction: an attribute the document declares as
    required or not computed is listed in the output, at the same place,
    under its name and with its [required] flag. *)
Theorem kept_attribute_is_extracted (path : list text) :
  forall (b : block_schema) (n : text) (a : attr_schema),
    source_attribute path b n a ->
    included a = true ->
    summary_attribute path (fst (parse_block b)) (snd (parse_block b))
      (Attribute n (default false (attr_required a))).
Proof.
  induction path as [|block_name path IH]; intros b n a; rewrite parse_block_eq; simpl.
  - intros Hin Hinc. rewrite parse_attributes_filter.
    apply in_map_iff. exists (n, a). split; [reflexivity|].
    apply filter_In. now split.
  - intros (b' & mi & Hin & Hsub) Hinc.
    exists (node_of (block_name, BlockType b' mi)). split; [|split].
    + apply in_map_iff. now exists (block_name, BlockType b' mi).
    + reflexivity.
    + simpl. now apply IH.
Qed.

Lemma kept_attribute_witness :
  summary_attribute [T "network_rules"]
    (fst (parse_block example_block)) (snd (parse_block example_block))
    (Attribute (T "default_action")
       (default false (attr_required (AttrSchema (Some true) (Some false))))).
Proof.
  apply (kept_attribute_is_extracted [T "network_rules"] example_block
           (T "default_action") (AttrSchema (Some true) (Some false))).
  - simpl. eexists _, _. split; [right; left; reflexivity|]. left. reflexivity.
  - reflexivity.
Defined.

(** X8: The nested blocks of the output are the nested block types of the
    document, at every depth: each declared block type is there with its
    name, its [min_items] or 0, and the extraction of its own block, and
    the output holds no other block. *)
Theorem nested_blocks_are_the_declared_ones (path : list text) :
  forall b : block_schema,
    (forall n bt,
        source_block path b n bt ->
        summary_block path (snd (parse_block b)) (node_of (n, bt)))
    /\ (forall node,
          summary_block path (snd (parse_block b)) node ->
          exists n bt, source_block path b n bt /\ node = node_of (n, bt)).
Proof.
  induction path as [|block_name path IH]; intros b; rewrite parse_block_eq; simpl.
  - split.
    + intros n bt Hin. apply in_map_iff. now exists (n, bt).
    + intros node Hin. apply in_map_iff in Hin as ([n bt] & <- & Hin). eauto.
  - split.
    + intros n bt (b' & mi & Hin & Hsub).
      exists (node_of (block_name, BlockType b' mi)). split; [|split].
      * apply in_map_iff. now exists (block_name, BlockType b' mi).
      * reflexivity.
      * simpl. now apply IH.
    + intros node (parent & Hin & Hname & Hsub).
      apply in_map_iff in Hin as ([n [b' mi]] & <- & Hin).
      simpl in Hname, Hsub. subst n.
      apply IH in Hsub as (n' & bt & Hsrc & ->).
      exists n', bt. split; [|reflexivity]. exists b', mi. tauto.
Qed.

(** X9: An entry that has a version and no block is not reported as missing:
    the [KeyError] of [resource["block"]] leaves the script uncaught,
    after the banner and before anything is written. *)
Theorem entry_without_block_raises_KeyError (schema : schema_document)
    (urlretrieve : text -> (text * option text) + text)
    (script provider_supplier resource_type provider_name provider_version : text)
    (version : Z) (w : world) :
  dict_get resource_type (resource_catalog schema provider_supplier provider_name)
  = Some (ResourceSchema (Some version) None) ->
  main schema urlretrieve
    [script; provider_supplier; provider_name; provider_version; resource_type] w
  = Raised (KeyError (T "block"))
      (World (dirs w) (files w) (stdout w ++ [banner resource_type])).
Proof.
  intros H. unfold main, mbind, M_bind, print, modify, try_ValueError,
    extract_full_block_tree. rewrite H. reflexivity.
Qed.

Lemma entry_without_block_witness :
  main (SchemaDocument
          (Some [ (T "registry.terraform.io/hashicorp/azurerm",
                   ProviderSchema
                     (Some [ (T "azurerm_x", ResourceSchema (Some 0%Z) None) ])) ]))
    (fun _ => inl ([], None))
    [T "2_extract_schema_and_wiki.py"; T "hashicorp"; T "azurerm"; T "4.0.0"; T "azurerm_x"]
    empty_world
  = Raised (KeyError (T "block"))
      (World (dirs empty_world) (files empty_world)
         (stdout empty_world ++ [banner (T "azurerm_x")])).
Proof.
  apply (entry_without_block_raises_KeyError _ (fun _ => inl ([], None))
           (T "2_extract_schema_and_wiki.py") (T "hashicorp") (T "azurerm_x")
           (T "azurerm") (T "4.0.0") 0%Z empty_world).
  reflexivity.
Defined.

(** X10: Without an entry for the provider, or with one that has no
    [resource_schemas], every resource type is reported as not found. *)
Theorem unknown_provider_has_no_resource (schema : schema_document)
    (urlretrieve : text -> (text * option text) + text)
    (script provider_supplier resource_type provider_name provider_version : text)
    (w : world) :
  dict_get (provider_key provider_supplier provider_name)
    (default [] (provider_schemas schema)) = None
  \/ dict_get (provider_key provider_supplier provider_name)
       (default [] (provider_schemas schema)) = Some (ProviderSchema None) ->
  extract_full_block_tree schema provider_supplier resource_type
    provider_name provider_version w
  = Raised (ValueError (not_found_message resource_type)) w
  /\ main schema urlretrieve
       [script; provider_supplier; provider_name; provider_version; resource_type] w
     = Exited 1
         (World (dirs w) (files w)
            (stdout w ++ [banner resource_type; not_found_message resource_type])).
Proof.
  intros H.
  assert (E : dict_get resource_type
                (resource_catalog schema provider_supplier provider_name) = None).
  { unfold resource_catalog. fold (provider_key provider_supplier provider_name).
    destruct H as [-> | ->]; reflexivity. }
  split; [apply extract_not_found; now left|].
  rewrite main_not_found; [|apply extract_not_found; now left].
  unfold banner. now rewrite <- app_assoc.
Qed.

Lemma unknown_provider_witness :
  extract_full_block_tree example_schema (T "hashicorp") (T "aws_s3_bucket")
    (T "aws") (T "5.0.0") empty_world
  = Raised (ValueError (not_found_message (T "aws_s3_bucket"))) empty_world
  /\ main example_schema (fun _ => inl ([], None))
       [T "2_extract_schema_and_wiki.py"; T "hashicorp"; T "aws"; T "5.0.0";
        T "aws_s3_bucket"] empty_world
     = Exited 1
         (World (dirs empty_world) (files empty_world)
            (stdout empty_world
             ++ [banner (T "aws_s3_bucket"); not_found_message (T "aws_s3_bucket")])).
Proof.
  apply (unknown_provider_has_no_resource example_schema (fun _ => inl ([], None))
           (T "2_extract_schema_and_wiki.py") (T "hashicorp") (T "aws_s3_bucket")
           (T "aws") (T "5.0.0") empty_world).
  left. reflexivity.
Defined.

(** X11: With a number of command-line arguments other than four, the script
    prints its usage line and exits with status 1; it reads no schema and
    writes nothing. *)
Theorem wrong_argument_count_prints_usage (schema : schema_document)
    (urlretrieve : text -> (text * option text) + text) (argv : list text) (w : world) :
  length argv <> 5%nat ->
  main schema urlretrieve argv w
  = Exited 1 (World (dirs w) (files w) (stdout w ++ [usage])).
Proof.
  intros H. destruct argv as [|a0 [|a1 [|a2 [|a3 [|a4 [|a5 argv]]]]]];
    try reflexivity.
  now contradiction H.
Qed.

Lemma wrong_argument_count_witness :
  main example_schema (fun _ => inl ([], None))
    [T "2_extract_schema_and_wiki.py"; T "hashicorp"; T "azurerm"] empty_world
  = Exited 1 (World (dirs empty_world) (files empty_world) (stdout empty_world ++ [usage])).
Proof.
  apply (wrong_argument_count_prints_usage example_schema (fun _ => inl ([], None))
           [T "2_extract_schema_and_wiki.py"; T "hashicorp"; T "azurerm"] empty_world).
  simpl. lia.
Defined.

Lemma starts_with_app (old rest : text) : starts_with old (old ++ rest) = true.
Proof.
  induction old as [|c old IH]; [reflexivity|]. simpl. now rewrite N.eqb_refl.
Qed.

Lemma find_none_no_match (old new s : text) :
  find old s = None ->
  matches_somewhere
    (fun r => if starts_with old r then Some (new, length old) else None) s = false.
Proof.
  induction s as [|c s IH]; [reflexivity|].
  change (find old (c :: s))
    with (if starts_with old (c :: s) then Some O else S <$> find old s).
  simpl. destruct (starts_with old (c :: s)); [discriminate|].
  destruct (find old s); [discriminate|]. intros _. now apply IH.
Qed.

Lemma str_replace_absent (old new s : text) :
  contains old s = false -> str_replace old new s = s.
Proof.
  unfold contains, str_replace. intros H. apply re_sub_no_match.
  apply find_none_no_match. now destruct (find old s).
Qed.

Lemma str_replace_prefix (old new rest : text) :
  old <> [] -> contains old rest = false ->
  str_replace old new (old ++ rest) = new ++ rest.
Proof.
  intros Hold H. unfold str_replace.
  rewrite (SanitizerMore.re_sub_match_head _ _ new (length old)).
  - rewrite drop_app_length. f_equal. now apply (str_replace_absent old new rest).
  - now rewrite starts_with_app.
  - destruct old; [congruence | discriminate].
  - destruct old; [congruence | simpl; lia].
Qed.

Lemma starts_with_app_long (p : text) :
  forall x b, (length p <= length x)%nat -> starts_with p (x ++ b) = starts_with p x.
Proof.
  induction p as [|a p IH]; intros x b H; [reflexivity|].
  destruct x as [|c x]; simpl in *; [lia|]. f_equal. apply IH. lia.
Qed.

Lemma re_sub_copy_head (m : matcher) (c : N) (s : text) :
  m (c :: s) = None -> re_sub m (c :: s) = c :: re_sub m s.
Proof. intros H. unfold re_sub. simpl. now rewrite H. Qed.

Lemma find_self (p : text) : find p ([] ++ p) = Some (length (@nil N)).
Proof.
  cbn [app length]. destruct p as [|c p]; [reflexivity|]. cbn [find].
  rewrite <- (app_nil_r (c :: p)) at 2. now rewrite starts_with_app.
Qed.

(** An occurrence of [old] before which none starts is replaced, and
    the scan goes on behind it. *)
Lemma str_replace_occurrence (old new b : text) :
  old <> [] ->
  forall a,
    find old (a ++ old) = Some (length a) ->
    str_replace old new (a ++ old ++ b) = a ++ new ++ str_replace old new b.
Proof.
  intros Hold. induction a as [|c a IH]; intros Hfind.
  - unfold str_replace. cbn [app].
    rewrite (SanitizerMore.re_sub_match_head _ _ new (length old)).
    + now rewrite drop_app_length.
    + now rewrite starts_with_app.
    + destruct old; [congruence | discriminate].
    + destruct old; [congruence | simpl; lia].
  - change (find old ((c :: a) ++ old))
      with (if starts_with old (c :: a ++ old) then Some O
            else S <$> find old (a ++ old)) in Hfind.
    destruct (starts_with old (c :: a ++ old)) eqn:Es; [discriminate|].
    destruct (find old (a ++ old)) as [n|] eqn:Ef; [|discriminate].
    injection Hfind as ->.
    unfold str_replace in *. cbn [app].
    rewrite re_sub_copy_head; [now rewrite (IH eq_refl)|].
    change (c :: a ++ old ++ b) with ((c :: a) ++ old ++ b).
    rewrite app_assoc, starts_with_app_long, <- app_comm_cons, Es; [reflexivity|].
    rewrite length_app. lia.
Qed.

(** X12: The documentation page is named after the resource type with
    every occurrence of [<provider_name>_] deleted, from left to right,
    then [.html.markdown]: the prefix at the front is dropped and what
    follows is treated the same way; so is an occurrence that comes after
    a text [a] in which none starts earlier; and a resource type that
    holds no occurrence is used whole. *)
Theorem markdown_filename_drops_provider_prefix (provider_name a b s : text) :
  find (provider_name ++ T "_") (a ++ provider_name ++ T "_") = Some (length a) ->
  contains (provider_name ++ T "_") s = false ->
  markdown_filename provider_name (provider_name ++ T "_" ++ b)
  = markdown_filename provider_name b
  /\ markdown_filename provider_name (a ++ provider_name ++ T "_" ++ b)
     = a ++ markdown_filename provider_name b
  /\ markdown_filename provider_name s = s ++ T ".html.markdown".
Proof.
  intros Ha Hs. unfold markdown_filename.
  assert (Hold : provider_name ++ T "_" <> []) by (destruct provider_name; discriminate).
  split; [|split].
  - f_equal. rewrite (app_assoc provider_name).
    apply (str_replace_occurrence _ [] b Hold []). apply find_self.
  - rewrite (app_assoc provider_name).
    rewrite (str_replace_occurrence _ [] b Hold a Ha). cbn [app].
    now rewrite <- app_assoc.
  - now rewrite str_replace_absent.
Qed.

Lemma markdown_filename_witness :
  markdown_filename (T "azurerm") (T "azurerm" ++ T "_" ++ T "bar")
  = markdown_filename (T "azurerm") (T "bar")
  /\ markdown_filename (T "azurerm") (T "foo_" ++ T "azurerm" ++ T "_" ++ T "bar")
     = T "foo_" ++ markdown_filename (T "azurerm") (T "bar")
  /\ markdown_filename (T "azurerm") (T "storage_account")
     = T "storage_account" ++ T ".html.markdown".
Proof.
  apply (markdown_filename_drops_provider_prefix (T "azurerm") (T "foo_") (T "bar")
           (T "storage_account")); reflexivity.
Defined.

(** Both occurrences go, not only the one at the front. *)
Example markdown_filename_two_occurrences :
  markdown_filename (T "azurerm") (T "azurerm_foo_azurerm_bar") = T "foo_bar.html.markdown"
  /\ markdown_filename (T "azurerm") (T "azurerm_storage_account")
     = T "storage_account.html.markdown".
Proof. split; reflexivity. Qed.

Lemma path_join_suffix (a b : text) : exists pre, path_join a b = pre ++ b.
Proof.
  unfold path_join. destruct (starts_with (T "/") b); [now exists []|].
  repeat case_bool_decide; [now exists [] | now exists a |].
  exists (a ++ T "/"). now rewrite <- app_assoc.
Qed.

(** The summary and the documentation page never share a path. *)
Lemma summary_path_not_markdown (provider_name resource_type : text) :
  summary_path resource_type
  <> path_join (T "wiki") (markdown_filename provider_name resource_type).
Proof.
  unfold summary_path, markdown_filename.
  destruct (path_join_suffix (T "schemas") (resource_type ++ T ".json")) as [p1 ->].
  destruct (path_join_suffix (T "wiki")
              (str_replace (provider_name ++ T "_") [] resource_type
               ++ T ".html.markdown")) as [p2 ->].
  change (T ".html.markdown") with (T ".html.mar" ++ T "kdown").
  rewrite !app_assoc. intros E.
  apply app_inj_2 in E as [_ E]; [discriminate | reflexivity].
Qed.

Lemma main_extracted (schema : schema_document) (urlretrieve : text -> (text * option text) + text)
    (script provider_supplier resource_type provider_name provider_version : text)
    (version : option Z) (root_block : block_schema) (w : world) :
  dict_get resource_type (resource_catalog schema provider_supplier provider_name)
  = Some (ResourceSchema version (Some root_block)) ->
  main schema urlretrieve
    [script; provider_supplier; provider_name; provider_version; resource_type] w
  = download_markdown urlretrieve provider_supplier resource_type
      provider_name provider_version
      (World (dirs w ∪ list_to_set (ancestors (T "schemas")) ∪ {[T "schemas"]})
         (<[summary_path resource_type :=
              SummaryFile (Some (fst (parse_block root_block)))
                          (Some (snd (parse_block root_block)))]> (files w))
         ((stdout w ++ [banner resource_type])
          ++ [nl ++ [0x1F4C2] ++ T " Schema summary written to: "
                 ++ summary_path resource_type])).
Proof.
  intros H. unfold main, mbind, M_bind, print, modify, try_ValueError,
    extract_full_block_tree. rewrite H.
  unfold mret, M_ret, dump_summary_world, makedirs_world, summary_path, banner.
  destruct version; cbn [default from_option id dirs files stdout];
    destruct (parse_block root_block) as [args blocks]; reflexivity.
Qed.

Lemma main_success (schema : schema_document)
    (urlretrieve : text -> (text * option text) + text)
    (script provider_supplier resource_type provider_name provider_version : text)
    (version : option Z) (root_block : block_schema) (w : world) :
  dict_get resource_type (resource_catalog schema provider_supplier provider_name)
  = Some (ResourceSchema version (Some root_block)) ->
  exists w',
    main schema urlretrieve
      [script; provider_supplier; provider_name; provider_version; resource_type] w
    = Returned tt w'
    /\ files w' !! summary_path resource_type
       = Some (SummaryFile (Some (fst (parse_block root_block)))
                           (Some (snd (parse_block root_block))))
    /\ T "schemas" ∈ dirs w' /\ T "wiki" ∈ dirs w'
    /\ files w'
       = match urlretrieve (markdown_url provider_supplier resource_type
                              provider_name provider_version) with
         | inr page | inl (_, Some page) =>
             <[path_join (T "wiki") (markdown_filename provider_name resource_type)
               := TextFile page]>
               (<[summary_path resource_type :=
                    SummaryFile (Some (fst (parse_block root_block)))
                                (Some (snd (parse_block root_block)))]> (files w))
         | inl (_, None) =>
             <[summary_path resource_type :=
                 SummaryFile (Some (fst (parse_block root_block)))
                             (Some (snd (parse_block root_block)))]> (files w)
         end.
Proof.
  intros H. rewrite (main_extracted _ _ _ _ _ _ _ _ _ _ H).
  unfold download_markdown, markdown_url, markdown_filename, mbind, M_bind, print, modify.
  cbn [dirs files stdout makedirs_world].
  destruct (urlretrieve _) as [[e [part|]]|page]; eexists; (split; [reflexivity|]);
    cbn [dirs files stdout].
  - rewrite CrewFacts.open_write_files. cbn [files].
    split.
    { rewrite lookup_insert_ne; [apply lookup_insert_eq|].
      intros E. symmetry in E. revert E. apply summary_path_not_markdown. }
    split; [set_solver|]. split; [set_solver|]. reflexivity.
  - split; [apply lookup_insert_eq|]. split; [set_solver|]. split; [set_solver|].
    reflexivity.
  - rewrite CrewFacts.open_write_files. cbn [files].
    split.
    { rewrite lookup_insert_ne; [apply lookup_insert_eq|].
      intros E. symmetry in E. revert E. apply summary_path_not_markdown. }
    split; [set_solver|]. split; [set_solver|]. reflexivity.
Qed.



End ExtractorMore.

(** ** More on the generator *)

Module CrewMore.

Import Sanitizer Crew Writing Rendering Names Examples SanitizerFacts CrewFacts.

(** Induction on a block tree, with the hypothesis on every nested block. *)
Lemma block_node_nested_ind (P : block_node -> Prop) :
  (forall n m attributes blocks,
      Forall P blocks -> P (BlockNode n m attributes blocks)) ->
  forall b, P b.
Proof.
  intros H. fix IH 1. intros [n m attributes blocks]. apply H.
  induction blocks as [|b blocks IHblocks]; constructor; [apply IH | exact IHblocks].
Qed.

Lemma format_block_length (b : block_node) :
  forall indent, length (format_block indent b) = block_entries b.
Proof.
  induction b as [n m attributes blocks IH] using block_node_nested_ind.
  intros indent. simpl. rewrite length_app, length_map. do 2 f_equal.
  induction IH as [|b blocks Hb _ IHblocks]; [reflexivity|].
  rewrite length_app, Hb, IHblocks. reflexivity.
Qed.

(** X14: The rendered block tree has one line for each block and one for each
    attribute of a block, at every depth. *)
Theorem format_block_tree_line_count (blocks : list block_node) (indent : nat) :
  length (format_block_tree blocks indent) = tree_entries blocks.
Proof.
  unfold format_block_tree. induction blocks as [|b blocks IH]; [reflexivity|].
  simpl. now rewrite length_app, format_block_length, IH.
Qed.

Lemma format_block_indented (b : block_node) :
  forall indent line,
    In line (format_block indent b) ->
    exists k rest, (indent <= k)%nat /\ line = indentation k ++ T "- " ++ rest.
Proof.
  induction b as [n m attributes blocks IH] using block_node_nested_ind.
  intros indent line. simpl. intros [<- | H].
  - exists indent. eexists. split; [lia | reflexivity].
  - apply in_app_or in H as [H | H].
    + apply in_map_iff in H as (attr & <- & _).
      exists (S indent). eexists. split; [lia | reflexivity].
    + induction IH as [|b blocks Hb _ IHblocks]; [destruct H|].
      apply in_app_or in H as [H | H].
      * destruct (Hb _ _ H) as (k & rest & Hk & ->).
        exists k, rest. split; [lia | reflexivity].
      * exact (IHblocks H).
Qed.

(** X15: Every line of the rendered block tree is an indentation of at least
    the starting depth, two spaces a level, followed by a dash and a
    space. *)
Theorem format_block_tree_lines_indented (blocks : list block_node)
    (indent : nat) (line : text) :
  In line (format_block_tree blocks indent) ->
  exists k rest, (indent <= k)%nat /\ line = indentation k ++ T "- " ++ rest.
Proof.
  unfold format_block_tree. intros H. apply in_flat_map in H as (b & _ & H).
  exact (format_block_indented _ _ _ H).
Qed.

Lemma format_block_tree_lines_witness :
  exists k rest,
    (0 <= k)%nat /\ T "  - type (required)" = indentation k ++ T "- " ++ rest.
Proof.
  apply (format_block_tree_lines_indented example_block_tree 0 (T "  - type (required)")).
  vm_compute. right. left. reflexivity.
Defined.

(** X16: The prompt base in closed form: the sentence naming the resource
    type, the title [Arguments:], one line for each argument in the order
    given, an empty line, the title [Nested Block Tree:], and the lines of
    the block tree separated by line feeds. *)
Theorem schema_summary_layout (resource_type : text)
    (arguments : list attribute) (block_tree : list block_node) :
  schema_summary resource_type arguments block_tree
  = T "You are generating Terraform code for resource " ++ resource_type ++ T "." ++ nl
    ++ T "Arguments:" ++ nl
    ++ concat (map argument_line arguments)
    ++ nl ++ T "Nested Block Tree:" ++ nl
    ++ join nl (format_block_tree block_tree 0).
Proof.
  unfold schema_summary.
  assert (E : forall init,
    fold_left (fun acc arg =>
                 acc ++ T "- " ++ name arg ++ T " (" ++ required_tag (required arg)
                     ++ T ")" ++ nl) arguments init
    = init ++ concat (map argument_line arguments)).
  { induction arguments as [|a arguments IH]; intros init; cbn [fold_left map concat].
    - now rewrite app_nil_r.
    - rewrite IH. unfold argument_line at 2. now rewrite <- !app_assoc. }
  rewrite E. now rewrite <- !app_assoc.
Qed.

(** X17: The console after the writer: one line for each file whose content is
    not empty, in the order of the files. *)
Theorem writer_prints_one_line_per_file (folder : text) (items : list (text * text))
    (w : world) :
  stdout (run_ops (write_ops folder items) w)
  = stdout w ++ map (written_line folder) (List.filter not_empty items).
Proof.
  unfold write_ops. simpl.
  change (stdout w) with (stdout (makedirs_world folder w)).
  generalize (makedirs_world folder w). clear w.
  induction items as [|[f c] items IH]; intros w; simpl.
  - now rewrite app_nil_r.
  - rewrite run_ops_app, IH. unfold write_file_ops, not_empty. simpl.
    case_bool_decide; simpl; [reflexivity|].
    now rewrite <- app_assoc.
Qed.

(** X18: Running the writer again on the same files changes no file and no
    directory. *)
Theorem writer_rerun_changes_nothing (ps pn pv rt : text) (v m o : option text)
    (w : world) :
  files (run_ops (write_ops (output_folder rt) (generated ps pn pv v m o))
           (run_ops (write_ops (output_folder rt) (generated ps pn pv v m o)) w))
  = files (run_ops (write_ops (output_folder rt) (generated ps pn pv v m o)) w)
  /\ dirs (run_ops (write_ops (output_folder rt) (generated ps pn pv v m o))
             (run_ops (write_ops (output_folder rt) (generated ps pn pv v m o)) w))
     = dirs (run_ops (write_ops (output_folder rt) (generated ps pn pv v m o)) w).
Proof.
  split.
  - rewrite !write_ops_files. apply map_eq. intros p.
    destruct (decide (p ∈ map (fun item => path_join (output_folder rt) (fst item))
                            (generated ps pn pv v m o))) as [Hin | Hout];
      rewrite list_elem_of_In in *.
    + apply in_map_iff in Hin as ([f c] & <- & Hin). cbn [fst].
      rewrite !(put_items_lookup _ _ f c) by
        (apply generated_paths_distinct || exact Hin).
      destruct (bool_decide (c = [])); reflexivity.
    + now rewrite !put_items_other by exact Hout.
  - rewrite !write_ops_dirs. apply set_eq. intros x.
    rewrite !elem_of_union. tauto.
Qed.

(** X19: What the run writes for the three generated artifacts is sanitised
    text that is not empty: a file of the module is left as it was, or it
    holds text without backtick that neither begins nor ends with white
    space. *)
Theorem artifacts_written_are_sanitised (crew : backend)
    (ps pn pv rt : text) (args : list attribute) (blocks : list block_node)
    (md : text) (v m o : option text) (w : world) :
  crew (variables_task (schema_summary rt args blocks) md)
       (main_task (schema_summary rt args blocks) rt)
       (outputs_task rt) = inr (v, m, o) ->
  exists w',
    main crew ps pn pv rt args blocks md w = Returned tt w'
    /\ forall filename raw,
         In (filename, raw) [ (T "variables.tf", v); (T "main.tf", m); (T "outputs.tf", o) ] ->
         files w' !! path_join (output_folder rt) filename
         = files w !! path_join (output_folder rt) filename
         \/ exists c,
             files w' !! path_join (output_folder rt) filename = Some (TextFile c)
             /\ c = clean_content (default [] raw)
             /\ c <> [] /\ ~ In backtick c /\ strip c = c.
Proof.
  intros H. eexists. split.
  { unfold main, tasks. rewrite H. reflexivity. }
  rewrite write_ops_files. intros filename raw Hin.
  assert (Hgen : In (filename, clean_content (default [] raw)) (generated ps pn pv v m o)).
  { unfold generated. simpl in *.
    destruct Hin as [[= <- <-] | [[= <- <-] | [[= <- <-] | []]]]; tauto. }
  rewrite (put_items_lookup _ _ _ _ _ (generated_paths_distinct _ _ _ _ _ _ _) Hgen).
  case_bool_decide as Hc; [now left|]. right.
  eexists. split; [reflexivity|]. split; [reflexivity|]. split; [exact Hc|].
  split; [|apply clean_content_stripped].
  intros Hbt. now apply clean_content_chars in Hbt as [Hbt _].
Qed.

Lemma artifacts_written_witness :
  exists w',
    main crew_agree (T "hashicorp") (T "azurerm") (T "4.0.0") storage_account
      [] [] [] empty_world = Returned tt w'
    /\ forall filename raw,
         In (filename, raw)
            [ (T "variables.tf", Some variables_name); (T "main.tf", Some body_st);
              (T "outputs.tf", Some outputs_st) ] ->
         files w' !! path_join (output_folder storage_account) filename
         = files empty_world !! path_join (output_folder storage_account) filename
         \/ exists c,
             files w' !! path_join (output_folder storage_account) filename
             = Some (TextFile c)
             /\ c = clean_content (default [] raw)
             /\ c <> [] /\ ~ In backtick c /\ strip c = c.
Proof.
  apply (artifacts_written_are_sanitised crew_agree
           (T "hashicorp") (T "azurerm") (T "4.0.0") storage_account [] [] []
           (Some variables_name) (Some body_st) (Some outputs_st) empty_world).
  reflexivity.
Defined.

(** X20: An artifact whose raw text is missing or holds white space only is
    not written: the path of its file keeps what it held. *)
Theorem blank_artifact_leaves_file (crew : backend)
    (ps pn pv rt : text) (args : list attribute) (blocks : list block_node)
    (md : text) (v m o : option text) (w : world) :
  crew (variables_task (schema_summary rt args blocks) md)
       (main_task (schema_summary rt args blocks) rt)
       (outputs_task rt) = inr (v, m, o) ->
  Forall (fun c => is_space c = true) (default [] m) ->
  exists w',
    main crew ps pn pv rt args blocks md w = Returned tt w'
    /\ files w' !! path_join (output_folder rt) (T "main.tf")
       = files w !! path_join (output_folder rt) (T "main.tf").
Proof.
  intros H Hm. eexists. split.
  { unfold main, tasks. rewrite H. reflexivity. }
  rewrite write_ops_files.
  rewrite (put_items_lookup _ _ (T "main.tf") (clean_content (default [] m)));
    [| apply generated_paths_distinct | simpl; tauto].
  rewrite (SanitizerMore.clean_content_blank _ Hm). reflexivity.
Qed.

Lemma blank_artifact_witness :
  exists w',
    main (fun _ _ _ => inr (Some variables_name, Some (nl ++ T "  "), None))
      (T "hashicorp") (T "azurerm") (T "4.0.0") storage_account [] [] [] earlier_world
    = Returned tt w'
    /\ files w' !! path_join (output_folder storage_account) (T "main.tf")
       = files earlier_world !! path_join (output_folder storage_account) (T "main.tf").
Proof.
  apply (blank_artifact_leaves_file
           (fun _ _ _ => inr (Some variables_name, Some (nl ++ T "  "), None))
           (T "hashicorp") (T "azurerm") (T "4.0.0") storage_account [] [] []
           (Some variables_name) (Some (nl ++ T "  ")) None earlier_world).
  - reflexivity.
  - repeat constructor.
Defined.

Lemma ancestors_from_no_slash (rest : text) :
  forall done, ~ In 47 rest -> ancestors_from done rest = [].
Proof.
  induction rest as [|c rest IH]; intros done H; [reflexivity|].
  simpl. assert (E : (c =? 47) = false).
  { apply N.eqb_neq. intros ->. apply H. now left. }
  rewrite E. simpl. apply IH. intros Hin. apply H. now right.
Qed.

Lemma ancestors_from_app (a rest : text) :
  forall done, ancestors_from done (a ++ rest)
               = ancestors_from done a ++ ancestors_from (done ++ a) rest.
Proof.
  induction a as [|c a IH]; intros done; simpl.
  - now rewrite app_nil_r.
  - rewrite IH, <- !app_assoc. reflexivity.
Qed.

(** X21: For a resource type that is a plain ASCII name the module folder
    is [modules/] followed by the lower-cased resource type, and the
    directories the writer makes are [modules] and that folder. *)
Theorem writer_makes_two_directories (ps pn pv rt : text) (v m o : option text)
    (w : world) :
  plain_name rt = true ->
  exists lowered,
    lower_cased rt lowered
    /\ output_folder rt = T "modules/" ++ lowered
    /\ dirs (run_ops (write_ops (output_folder rt) (generated ps pn pv v m o)) w)
       = dirs w ∪ {[ T "modules"; T "modules/" ++ lowered ]}.
Proof.
  intros Hplain. pose proof (plain_name_no_slash _ Hplain) as H.
  exists (lower rt). split; [apply lower_is_lower_cased|].
  pose proof (output_folder_no_slash rt H) as E. split; [exact E|].
  apply lower_no_slash in H.
  rewrite write_ops_dirs, E. unfold ancestors.
  change (T "modules/" ++ lower rt) with (T "modules" ++ ([47] ++ lower rt)).
  rewrite ancestors_from_app.
  change (ancestors_from [] (T "modules")) with (@nil text).
  change (ancestors_from ([] ++ T "modules") ([47] ++ lower rt))
    with ([T "modules"] ++ ancestors_from (T "modules/") (lower rt)).
  rewrite (ancestors_from_no_slash _ _ H), app_nil_r. cbn [app].
  apply set_eq. intros x.
  rewrite !elem_of_union, elem_of_list_to_set, list_elem_of_singleton, !elem_of_singleton.
  tauto.
Qed.

Lemma writer_makes_two_directories_witness :
  exists lowered,
    lower_cased (T "AzureRM_Storage_Account") lowered
    /\ output_folder (T "AzureRM_Storage_Account") = T "modules/" ++ lowered
    /\ dirs (run_ops (write_ops (output_folder (T "AzureRM_Storage_Account"))
                        (generated (T "hashicorp") (T "azurerm") (T "4.0.0")
                           None None None)) empty_world)
       = dirs empty_world ∪ {[ T "modules"; T "modules/" ++ lowered ]}.
Proof.
  apply (writer_makes_two_directories (T "hashicorp") (T "azurerm") (T "4.0.0")
           (T "AzureRM_Storage_Account") None None None empty_world).
  reflexivity.
Defined.

(** X22: An ASCII resource type that begins with a slash takes the module
    out of [modules]: the folder is the lower-cased resource type itself,
    an absolute path. *)
Theorem absolute_resource_type_leaves_modules (rt : text) :
  starts_with (T "/") rt = true ->
  ascii_text rt = true ->
  exists lowered,
    lower_cased rt lowered
    /\ output_folder rt = lowered
    /\ starts_with (T "/") lowered = true.
Proof.
  intros H _. exists (lower rt). split; [apply lower_is_lower_cased|].
  apply starts_with_head in H as (r & -> & _). split; reflexivity.
Qed.

Lemma absolute_resource_type_witness :
  exists lowered,
    lower_cased (T "/tmp/Module") lowered
    /\ output_folder (T "/tmp/Module") = lowered
    /\ starts_with (T "/") lowered = true.
Proof.
  apply (absolute_resource_type_leaves_modules (T "/tmp/Module")); reflexivity.
Defined.

End CrewMore.

(** ** The generator script as a whole, and the two scripts in a row *)

Module ScriptFacts.

Import Extractor Crew Reading Blocks Script Examples ExtractorFacts.

Section Loading.

Variable json_loads :
  text -> exn + (option (list attribute) * option (list block_node)).
Variable json_dumps : option (list attribute) -> option (list block_node) -> text.

(** With a number of command-line arguments other than four, the
    generator prints its usage line and exits with status 1, whatever the
    backend would answer. *)
Theorem script_wrong_argument_count (crew : backend) (argv : list text) (w : world) :
  length argv <> 5%nat ->
  script json_loads json_dumps crew argv w
  = Exited 1 (World (dirs w) (files w) (stdout w ++ [Script.usage])).
Proof.
  intros H. destruct argv as [|a0 [|a1 [|a2 [|a3 [|a4 [|a5 argv]]]]]];
    try reflexivity.
  now contradiction H.
Qed.

(** X23: Without the schema summary of the resource type, the generator says
    which file is missing and exits with status 1; the backend is not
    asked and nothing is written. *)
Theorem script_missing_schema_file (crew : backend)
    (name ps pn pv rt : text) (w : world) :
  files w !! summary_path rt = None ->
  script json_loads json_dumps crew [name; ps; pn; pv; rt] w
  = Exited 1
      (World (dirs w) (files w)
         (stdout w ++ [[0x274C] ++ T " Schema file not found: " ++ summary_path rt])).
Proof.
  intros H. unfold script, mbind, M_bind, file_at, summary_path in *.
  rewrite H. reflexivity.
Qed.

(** X24: With the schema summary in place and the documentation page missing,
    the generator says which page is missing and exits with status 1; the
    backend is not asked and nothing is written. *)
Theorem script_missing_markdown_file (crew : backend)
    (name ps pn pv rt : text) (w : world)
    (arguments : option (list attribute)) (block_tree : option (list block_node)) :
  files w !! summary_path rt = Some (SummaryFile arguments block_tree) ->
  files w !! path_join (T "wiki") (markdown_filename pn rt) = None ->
  script json_loads json_dumps crew [name; ps; pn; pv; rt] w
  = Exited 1
      (World (dirs w) (files w)
         (stdout w ++ [[0x274C] ++ T " Markdown file not found: "
                          ++ path_join (T "wiki") (markdown_filename pn rt)])).
Proof.
  intros H1 H2. unfold script, mbind, M_bind, file_at, summary_path, markdown_filename in *.
  rewrite H1. cbn [json_load]. rewrite H2. reflexivity.
Qed.

(** With both files in place the generator runs [Crew.main] on what they
    hold: the two lists of the summary, an absent list read as empty, and
    the page as text. *)
Lemma script_loaded (crew : backend) (name ps pn pv rt : text) (w : world)
    (arguments : option (list attribute)) (block_tree : option (list block_node))
    (page : text) :
  files w !! summary_path rt = Some (SummaryFile arguments block_tree) ->
  files w !! path_join (T "wiki") (markdown_filename pn rt) = Some (TextFile page) ->
  script json_loads json_dumps crew [name; ps; pn; pv; rt] w
  = main crew ps pn pv rt (default [] arguments) (default [] block_tree)
      (universal_newlines page) w.
Proof.
  intros H1 H2. unfold script, mbind, M_bind, file_at, summary_path, markdown_filename in *.
  rewrite H1. cbn [json_load]. rewrite H2. reflexivity.
Qed.

(** X25: The two scripts in a row: when the extractor has ended normally with
    the page downloaded, the generator started with the same arguments
    finds both files and runs on the extraction of the resource's block
    and on the page. *)
Theorem extractor_output_feeds_generator (crew : backend) (schema : schema_document)
    (urlretrieve : text -> (text * option text) + text)
    (name2 name3 ps pn pv rt : text) (version : option Z) (root_block : block_schema)
    (page : text) (w w' : world) :
  dict_get rt (resource_catalog schema ps pn)
  = Some (ResourceSchema version (Some root_block)) ->
  urlretrieve (markdown_url ps rt pn pv) = inr page ->
  Extractor.main schema urlretrieve [name2; ps; pn; pv; rt] w = Returned tt w' ->
  script json_loads json_dumps crew [name3; ps; pn; pv; rt] w'
  = Crew.main crew ps pn pv rt
      (fst (parse_block root_block)) (snd (parse_block root_block))
      (universal_newlines page) w'.
Proof.
  intros Hcat Hnet Hrun.
  destruct (ExtractorMore.main_success schema urlretrieve name2 ps rt pn pv
              version root_block w Hcat) as (w'' & Hrun' & Hsum & _ & _ & Hfiles).
  rewrite Hrun in Hrun'. injection Hrun' as <-.
  rewrite Hnet in Hfiles.
  assert (Hpage : files w' !! path_join (T "wiki") (markdown_filename pn rt)
                  = Some (TextFile page)).
  { rewrite Hfiles. apply lookup_insert_eq. }
  now rewrite (script_loaded crew name3 ps pn pv rt w' _ _ page Hsum Hpage).
Qed.

End Loading.

Lemma script_wrong_argument_count_witness :
  script no_json_loads no_json_dumps crew_agree [T "3_crew_terraform.py"] empty_world
  = Exited 1 (World (dirs empty_world) (files empty_world)
                (stdout empty_world ++ [Script.usage])).
Proof.
  apply (script_wrong_argument_count no_json_loads no_json_dumps crew_agree
           [T "3_crew_terraform.py"] empty_world).
  simpl. lia.
Defined.

Lemma script_missing_schema_file_witness :
  script no_json_loads no_json_dumps crew_agree
    [T "3_crew_terraform.py"; T "hashicorp"; T "azurerm"; T "4.0.0"; storage_account]
    empty_world
  = Exited 1
      (World (dirs empty_world) (files empty_world)
         (stdout empty_world
          ++ [[0x274C] ++ T " Schema file not found: " ++ summary_path storage_account])).
Proof.
  apply (script_missing_schema_file no_json_loads no_json_dumps crew_agree
           (T "3_crew_terraform.py") (T "hashicorp") (T "azurerm") (T "4.0.0")
           storage_account empty_world).
  reflexivity.
Defined.

Lemma script_missing_markdown_file_witness :
  script no_json_loads no_json_dumps crew_agree
    [T "3_crew_terraform.py"; T "hashicorp"; T "azurerm"; T "4.0.0"; storage_account]
    summary_only_world
  = Exited 1
      (World (dirs summary_only_world) (files summary_only_world)
         (stdout summary_only_world
          ++ [[0x274C] ++ T " Markdown file not found: "
                 ++ path_join (T "wiki") (markdown_filename (T "azurerm") storage_account)])).
Proof.
  apply (script_missing_markdown_file no_json_loads no_json_dumps crew_agree
           (T "3_crew_terraform.py") (T "hashicorp") (T "azurerm") (T "4.0.0")
           storage_account summary_only_world (Some []) (Some []));
    vm_compute; reflexivity.
Defined.

Lemma extractor_output_feeds_generator_witness :
  script no_json_loads no_json_dumps crew_agree
    [T "3_crew_terraform.py"; T "hashicorp"; T "azurerm"; T "4.0.0"; storage_account]
    (final_world
       (Extractor.main example_schema (fun _ => inr (T "# storage" ++ [13; 10]))
          [T "2_extract_schema_and_wiki.py"; T "hashicorp"; T "azurerm"; T "4.0.0";
           storage_account] empty_world))
  = Crew.main crew_agree (T "hashicorp") (T "azurerm") (T "4.0.0") storage_account
      (fst (parse_block example_block)) (snd (parse_block example_block))
      (universal_newlines (T "# storage" ++ [13; 10]))
      (final_world
         (Extractor.main example_schema (fun _ => inr (T "# storage" ++ [13; 10]))
            [T "2_extract_schema_and_wiki.py"; T "hashicorp"; T "azurerm"; T "4.0.0";
             storage_account] empty_world)).
Proof.
  apply (extractor_output_feeds_generator no_json_loads no_json_dumps crew_agree
           example_schema (fun _ => inr (T "# storage" ++ [13; 10]))
           (T "2_extract_schema_and_wiki.py") (T "3_crew_terraform.py")
           (T "hashicorp") (T "azurerm") (T "4.0.0") storage_account
           (Some 4%Z) example_block (T "# storage" ++ [13; 10]) empty_world).
  - reflexivity.
  - reflexivity.
  - reflexivity.
Defined.

End ScriptFacts.
